(** * Azure lab artifacts: the secrets sidecar and the Iris ML pipeline

    A shallow embedding of the executable parts of the repository:

    - the [az] sidecar container of the Kubernetes manifest (a shell
      poll loop republishing a key-vault listing to a served file);
    - the scripts the pipeline notebook writes with [%%writefile]
      ([ingest.py], [preprocess.py], [train.py], [evaluate.py],
      [deploy.py], [score.py]);
    - the [PythonScriptStep] declarations the notebook hands to the
      Azure ML pipeline service.

    Python floats are modelled as exact rationals ([Q]): every number
    these scripts compute is a ratio of two counts.  Uncaught Python
    exceptions are results of type [exn]; state that a script changed
    before it raised stays changed. *)

From Stdlib Require Import Ascii String QArith Qround.
From stdpp Require Import base option list strings gmap sets fin_maps relations sorting.

Local Open Scope string_scope.

(** ** The sidecar container of the [webapp] deployment *)

Module Sidecar.

(** What one external command did: what it printed on standard output and
    the status it exited with. *)
Record outcome := Outcome { out : string; status : Z }.

Definition succeeded (o : outcome) : bool := (status o =? 0)%Z.

(** The three loops of the script, in order. *)
Inductive phase :=
| AwaitToken   (* while ! curl ... ; do sleep 4; done *)
| AwaitLogin   (* while ! az login --identity; do sleep 4; done *)
| Polling.     (* while [ 1 -eq 1 ]; do az keyvault secret list ... *)

(** [index_html] is the content of /data/index.html, the only file the
    container writes (the nginx container serves it). *)
Record state := State { at_ : phase; index_html : string }.

Definition newline : string := String (Ascii.ascii_of_nat 10) EmptyString.

Definition placeholder : string :=
  "Unable to list secrets in key vault" ++ newline.

(** [cmd > file]: the shell truncates the file when it opens it, before
    the command runs; afterwards the file holds what the command printed,
    whatever its exit status. *)
Definition redirect (o : outcome) (s : state) : state :=
  {| at_ := at_ s; index_html := out o |}.

(** [echo Unable to list secrets in key vault > /data/index.html] *)
Definition start : state :=
  redirect {| out := placeholder; status := 0 |}
           {| at_ := AwaitToken; index_html := "" |}.

(** One external command returning.  The output of [curl] and of
    [az login] goes to the container's own standard output; only the
    listing is redirected. The status of the listing is never tested. *)
Definition step (s : state) (o : outcome) : state :=
  match at_ s with
  | AwaitToken =>
      if succeeded o then {| at_ := AwaitLogin; index_html := index_html s |}
      else s
  | AwaitLogin =>
      if succeeded o then {| at_ := Polling; index_html := index_html s |}
      else s
  | Polling => redirect o s
  end.

(** The container after the commands it ran returned [os], oldest first. *)
Definition run (os : list outcome) : state := foldl step start os.

(** The listings printed by the polls among [os], oldest first. *)
Fixpoint polls_from (p : phase) (os : list outcome) : list string :=
  match os with
  | [] => []
  | o :: os' =>
      match p with
      | AwaitToken => polls_from (if succeeded o then AwaitLogin else AwaitToken) os'
      | AwaitLogin => polls_from (if succeeded o then Polling else AwaitLogin) os'
      | Polling => out o :: polls_from Polling os'
      end
  end.

Definition polls (os : list outcome) : list string := polls_from AwaitToken os.

End Sidecar.

(** ** Python values, exceptions and the state a script runs in *)

Module Py.

(** The exceptions that can leave the modelled scripts. *)
Inductive exn :=
| NameError (name : string)
| KeyError (key : string)
| TypeError
| ValueError (msg : string)
| IndexError
| AttributeError
| FileNotFoundError (dir base : string)
| UnpicklingError
| JSONDecodeError
| WebserviceException.

Inductive result (A : Type) :=
| Ok (a : A)
| Raise (e : exn).
Global Arguments Ok {A} a.
Global Arguments Raise {A} e.

Global Instance result_ret : MRet result := λ A a, Ok a.

Global Instance result_bind : MBind result := λ A B k r,
  match r with
  | Ok a => k a
  | Raise e => Raise e
  end.

(** A cell of the data set, a class label: a number or a string. *)
Inductive value :=
| Num (q : Q)
| Str (s : string).

(** Python's [==] on cells: numbers by value, strings by content. *)
Definition value_eqb (a b : value) : bool :=
  match a, b with
  | Num p, Num q => Qeq_bool p q
  | Str s, Str t => String.eqb s t
  | _, _ => false
  end.

(** A fitted classifier, as far as its users see it: the number of features
    it was fitted on and the label it assigns to a feature vector. *)
Record classifier := Classifier {
  n_features : nat;
  decision : list Q → value
}.

(** The objects the scripts bind to names, pickle, and store as tags. *)
Inductive pyobj :=
| PNone
| PFloat (q : Q)
| PStr (s : string)
| PMatrix (rows : list (list value))
| PVector (v : list value)
| PModel (m : classifier)
| PNamed (name : string).   (* a module, class or function *)

Inductive file :=
| Text (s : string)
| Pickle (o : pyobj).

(** A registered model of the workspace ([Model.register]). *)
Record registered_model := RegisteredModel {
  model_path : string;
  model_name : string;
  tags : gmap string pyobj;
  description : string
}.

(** A published endpoint ([Model.deploy]). *)
Record webservice := Webservice {
  served_model : registered_model;
  entry_script : string;
  cpu_cores : nat;
  memory_gb : nat
}.

(** The calls that change the workspace, as they are made. *)
Inductive event :=
| Registered (m : registered_model)
| Deleted (service : string)
| Deployed (service : string) (s : webservice).

(** Everything a script run reads or changes.  A file is addressed by the
    directory string the script was given and the base name the script
    appends to it ([dir + '/name']); [namespace] is the module namespace of
    the running script; [calls] lists the workspace calls, latest first. *)
Record World := mkWorld {
  files : gmap (string * string) file;
  dirs : gset string;
  environ : gmap string string;
  namespace : gmap string pyobj;
  registry : gmap string registered_model;
  environments : gset string;
  services : gmap string webservice;
  calls : list event
}.

Definition set_files (f : gmap (string * string) file → gmap (string * string) file)
    (w : World) : World :=
  mkWorld (f (files w)) (dirs w) (environ w) (namespace w) (registry w)
          (environments w) (services w) (calls w).

Definition set_dirs (f : gset string → gset string) (w : World) : World :=
  mkWorld (files w) (f (dirs w)) (environ w) (namespace w) (registry w)
          (environments w) (services w) (calls w).

Definition set_namespace (f : gmap string pyobj → gmap string pyobj)
    (w : World) : World :=
  mkWorld (files w) (dirs w) (environ w) (f (namespace w)) (registry w)
          (environments w) (services w) (calls w).

Definition set_registry
    (f : gmap string registered_model → gmap string registered_model)
    (w : World) : World :=
  mkWorld (files w) (dirs w) (environ w) (namespace w) (f (registry w))
          (environments w) (services w) (calls w).

Definition set_environments (f : gset string → gset string) (w : World) : World :=
  mkWorld (files w) (dirs w) (environ w) (namespace w) (registry w)
          (f (environments w)) (services w) (calls w).

Definition set_services
    (f : gmap string webservice → gmap string webservice) (w : World) : World :=
  mkWorld (files w) (dirs w) (environ w) (namespace w) (registry w)
          (environments w) (f (services w)) (calls w).

Definition log (e : event) (w : World) : World :=
  mkWorld (files w) (dirs w) (environ w) (namespace w) (registry w)
          (environments w) (services w) (e :: calls w).

(** *** The monad of scripts: state, and exceptions that keep the state *)

Definition M (A : Type) : Type := World → result A * World.

Global Instance M_ret : MRet M := λ A a w, (Ok a, w).

Global Instance M_bind : MBind M := λ A B k m w,
  match m w with
  | (Ok a, w') => k a w'
  | (Raise e, w') => (Raise e, w')
  end.

Definition raise {A} (e : exn) : M A := λ w, (Raise e, w).

Definition gets {A} (f : World → A) : M A := λ w, (Ok (f w), w).

Definition modify (f : World → World) : M unit := λ w, (Ok (), f w).

Definition lift {A} (r : result A) : M A := λ w, (r, w).

(** [try: body / except E: handler], where [handles] says which exceptions
    are instances of [E]. *)
Definition try_except {A} (body : M A) (handles : exn → bool) (handler : M A)
    : M A := λ w,
  match body w with
  | (Raise e, w') => if handles e then handler w' else (Raise e, w')
  | r => r
  end.

Definition is_WebserviceException (e : exn) : bool :=
  match e with WebserviceException => true | _ => false end.

(** *** Names *)

(** A script starts in an empty module namespace. *)
Definition fresh_module : M unit := modify (set_namespace (λ _, ∅)).

(** [import name], [from m import name], [import m as name]. *)
Definition import_ (name : string) : M unit :=
  modify (set_namespace <[name := PNamed name]>).

(** [def name(...): ...] *)
Definition def_ (name : string) : M unit :=
  modify (set_namespace <[name := PNamed name]>).

(** [name = o] at module level, for the names that function bodies read. *)
Definition assign (name : string) (o : pyobj) : M unit :=
  modify (set_namespace <[name := o]>).

(** Reading a module-level name. *)
Definition global_ (name : string) : M pyobj := λ w,
  match namespace w !! name with
  | Some o => (Ok o, w)
  | None => (Raise (NameError name), w)
  end.

(** Standard output is not part of the model. *)
Definition print : M unit := mret ().

(** *** Files *)

(** [os.path.exists(d)] *)
Definition os_path_exists (d : string) : M bool :=
  global_ "os";; gets (λ w, bool_decide (d ∈ dirs w)).

(** [os.makedirs(d)], only ever called on a directory found missing. *)
Definition os_makedirs (d : string) : M unit :=
  global_ "os";; modify (set_dirs (union {[d]})).

(** [if not os.path.exists(d): os.makedirs(d)] *)
Definition ensure_dir (d : string) : M unit :=
  there ← os_path_exists d;
  if there : bool then mret () else os_makedirs d.

(** The directories after [if not os.path.exists(d): os.makedirs(d)]. *)
Definition ensured (d : string) (ds : gset string) : gset string :=
  if bool_decide (d ∈ ds) then ds else {[d]} ∪ ds.

(** [open(dir + '/base', 'rb')] *)
Definition open_r (dir base : string) : M file := λ w,
  match files w !! (dir, base) with
  | Some f => (Ok f, w)
  | None => (Raise (FileNotFoundError dir base), w)
  end.

(** [open(dir + '/base', 'wb')] (or ['w+']): the file is created or
    truncated; the directory must be there. *)
Definition open_w (dir base : string) : M unit := λ w,
  if bool_decide (dir ∈ dirs w)
  then (Ok (), set_files <[(dir, base) := Text ""]> w)
  else (Raise (FileNotFoundError dir base), w).

(** [pickle.load(open(dir + '/base', 'rb'))] *)
Definition pickle_load (dir base : string) : M pyobj :=
  global_ "pickle";;
  f ← open_r dir base;
  match f with
  | Pickle o => mret o
  | Text _ => raise UnpicklingError
  end.

(** [with open(dir + '/base', 'wb') as f: pickle.dump(o, f)] *)
Definition pickle_dump (o : pyobj) (dir base : string) : M unit :=
  open_w dir base;;
  global_ "pickle";;
  modify (set_files <[(dir, base) := Pickle o]>).

(** [with open(dir + '/base', 'w+') as f: f.write(s)] *)
Definition write_text (s : string) (dir base : string) : M unit :=
  open_w dir base;;
  modify (set_files <[(dir, base) := Text s]>).

End Py.

(** ** The library calls of the scripts

    pandas, NumPy and scikit-learn are not part of the repository; the
    scripts only call them.  What the scripts rely on is modelled here. *)

Module Lib.
Import Py.

(** *** [fnmatch] and [glob] of the Python library

    [glob.glob] reads the whole path it is given as a pattern, the
    directory part too; the characters [*], [?] and [[] are its wildcards. *)

(** What [fnmatch.translate] makes of a pattern: [*], [?], a bracket
    expression [[seq]] or [[!seq]], or a character standing for itself. *)
Inductive token :=
| TStar
| TAny
| TClass (negated : bool) (stuff : string)
| TChar (c : ascii).

(** The text up to the first [']'], and what follows it. *)
Fixpoint closing (s : string) : option (string * string) :=
  match s with
  | EmptyString => None
  | String c s' =>
      if Ascii.eqb c "]"%char then Some (EmptyString, s')
      else (λ found, (String c found.1, found.2)) <$> closing s'
  end.

(** A bracket expression, read after its ['[']: a leading [!] negates, a
    [']'] right at the start stands for itself, the next [']'] closes.
    Without a closing [']'] there is no bracket expression. *)
Definition bracket (s : string) : option (bool * string * string) :=
  let '(negated, s) :=
    match s with
    | String c s' => if Ascii.eqb c "!"%char then (true, s') else (false, s)
    | EmptyString => (false, s)
    end in
  match s with
  | String c s' =>
      if Ascii.eqb c "]"%char
      then (λ found, (negated, String c found.1, found.2)) <$> closing s'
      else (λ found, (negated, found.1, found.2)) <$> closing s
  | EmptyString => None
  end.

(** The pattern as tokens; [n] bounds the characters read. *)
Fixpoint translate (n : nat) (pat : string) : list token :=
  match n, pat with
  | S n', String c pat' =>
      if Ascii.eqb c "*"%char then TStar :: translate n' pat'
      else if Ascii.eqb c "?"%char then TAny :: translate n' pat'
      else if Ascii.eqb c "["%char then
        match bracket pat' with
        | Some (negated, stuff, rest) => TClass negated stuff :: translate n' rest
        | None => TChar c :: translate n' pat'
        end
      else TChar c :: translate n' pat'
  | _, _ => []
  end.

Definition char_le (a b : ascii) : bool :=
  (nat_of_ascii a <=? nat_of_ascii b)%nat.

(** The characters of a bracket expression: [a-b] is the range from [a] to
    [b] (empty when [a] comes after [b]), any other character itself. *)
Fixpoint in_class (stuff : string) (c : ascii) : bool :=
  match stuff with
  | EmptyString => false
  | String a rest =>
      match rest with
      | String dash (String b rest') =>
          if Ascii.eqb dash "-"%char
          then (char_le a c && char_le c b) || in_class rest' c
          else Ascii.eqb a c || in_class rest c
      | _ => Ascii.eqb a c || in_class rest c
      end
  end.

Definition token_match (t : token) (c : ascii) : bool :=
  match t with
  | TStar | TAny => true
  | TClass negated stuff => xorb negated (in_class stuff c)
  | TChar a => Ascii.eqb a c
  end.

(** The whole name against the tokens. *)
Fixpoint match_tokens (ts : list token) (name : string) : bool :=
  match ts with
  | [] => match name with EmptyString => true | _ => false end
  | TStar :: ts' =>
      (fix star (n : string) : bool :=
         match_tokens ts' n ||
         match n with EmptyString => false | String _ n' => star n' end) name
  | t :: ts' =>
      match name with
      | EmptyString => false
      | String c name' => token_match t c && match_tokens ts' name'
      end
  end.

(** [fnmatch.fnmatchcase(name, pat)] *)
Definition fnmatch (pat name : string) : bool :=
  match_tokens (translate (String.length pat) pat) name.

Definition hidden (name : string) : bool := String.prefix "." name.

(** The entries of a directory that [glob] lists for a pattern: a leading
    dot is only matched by a pattern that starts with one. *)
Definition glob_match (pattern name : string) : bool :=
  fnmatch pattern name && (negb (hidden name) || hidden pattern).

(** [glob.has_magic]: one of [*], [?], [[] occurs. *)
Fixpoint has_magic (s : string) : bool :=
  match s with
  | EmptyString => false
  | String c s' =>
      Ascii.eqb c "*"%char || Ascii.eqb c "?"%char || Ascii.eqb c "["%char
      || has_magic s'
  end.

(** The components of a path. *)
Fixpoint split_path (s : string) : list string :=
  match s with
  | EmptyString => [EmptyString]
  | String c s' =>
      if Ascii.eqb c "/"%char then EmptyString :: split_path s'
      else
        match split_path s' with
        | first :: others => String c first :: others
        | [] => [String c EmptyString]
        end
  end.

(** One component of the directory part: a pattern when it holds a
    wildcard, a name otherwise. *)
Definition component_match (pat name : string) : bool :=
  if has_magic pat then glob_match pat name else String.eqb pat name.

Fixpoint components_match (pats names : list string) : bool :=
  match pats, names with
  | [], [] => true
  | pat :: pats', name :: names' =>
      component_match pat name && components_match pats' names'
  | _, _ => false
  end.

(** The directories the directory part of the path stands for: the one it
    names when it holds no wildcard, and otherwise those that match it
    component by component (the directory named by the pattern itself is
    among them only if it matches). *)
Definition dir_match (pattern dir : string) : bool :=
  if has_magic pattern
  then components_match (split_path pattern) (split_path dir)
  else String.eqb pattern dir.

(** The files [glob.glob(os.path.join(dir, pattern))] finds.  (A
    directory is the string that names it: the world keeps no second
    spelling of a path.) *)
Definition listing (dir pattern : string) (w : World) : gmap (string * string) file :=
  filter (λ kv, dir_match dir kv.1.1 ∧ glob_match pattern kv.1.2) (files w).

(** The order of the results is the order in which the file system hands
    out the entries ([os.scandir]), which Python leaves open: "arbitrary
    order".  It is given by the place [rank] the file system has for each
    entry; every order of the entries is the order of some [rank]. *)
Definition listed_before {A} (rank : string * string → nat)
    (x y : string * string * A) : Prop :=
  (rank x.1 ≤ rank y.1)%nat.

Global Instance listed_before_dec {A} rank (x y : string * string * A) :
  Decision (listed_before rank x y).
Proof. unfold listed_before. apply _. Defined.

Definition scandir_order (rank : string * string → nat)
    (m : gmap (string * string) file) : list (string * string * file) :=
  merge_sort (listed_before rank) (map_to_list m).

(** [glob.glob(os.path.join(dir, pattern))] *)
Definition glob_glob (rank : string * string → nat) (dir pattern : string)
    : M (list (string * string)) :=
  global_ "glob";;
  global_ "os";;
  gets (λ w, (scandir_order rank (listing dir pattern w)).*1).

(** A record of the frame [pd.read_csv(f, names=names)] returns, one cell
    for each of the five names. *)
Definition row : Type := value * value * value * value * value.

(** [array[:, 0:4]] and [array[:, 4]] *)
Definition features (r : row) : list value :=
  let '(a, b, c, d, _) := r in [a; b; c; d].

Definition label (r : row) : value :=
  let '(_, _, _, _, e) := r in e.

(** Modelled from the spec: [pd.concat(frames)] of pandas, which src/ only
    calls.  The spec has Preprocess fail "if no parseable records are
    found"; pandas raises ValueError('No objects to concatenate') when it is
    given no frame, and joins the records of the frames otherwise. *)
Definition pd_concat (frames : list (list row)) : result (list row) :=
  match frames with
  | [] => Raise (ValueError "No objects to concatenate")
  | _ => Ok (concat frames)
  end.

(** [a[ind]] *)
Definition take_rows {A} (a : list A) (ind : list nat) : result (list A) :=
  match mapM (λ i, a !! i) ind with
  | Some rows => Ok rows
  | None => Raise IndexError
  end.

Section Split.

(** NumPy's generator: its states, the state a seed gives, and the
    permutation of [range(n)] a state draws. *)
Context {RandomState : Type}.
Context (seeded : Z → RandomState).
Context (permutation : RandomState → nat → list nat).

(** [check_random_state]: an integer seeds a generator of its own, [None]
    is the generator of the process. *)
Definition check_random_state (process_rng : RandomState)
    (random_state : option Z) : RandomState :=
  match random_state with
  | Some seed => seeded seed
  | None => process_rng
  end.

(** Modelled from the spec: [train_test_split] of scikit-learn, which src/
    only calls; the spec has it as a "deterministic split (fixed ratio
    0.8/0.2, fixed random seed)".  The sizes are those scikit-learn
    documents: the test part has [ceil(test_size * n)] samples, the train
    part the rest, an empty train part is an error; the samples are picked
    by one permutation drawn from the generator.  Returns
    [(X_train, X_test, y_train, y_test)]. *)
Definition train_test_split (process_rng : RandomState)
    (X : list (list value)) (y : list value)
    (test_size : Q) (random_state : option Z)
    : result (list (list value) * list (list value) * list value * list value) :=
  let n_samples := length X in
  if negb (bool_decide (length y = n_samples)) then
    Raise (ValueError "Found input variables with inconsistent numbers of samples")
  else if Qle_bool test_size 0 || Qle_bool 1 test_size then
    Raise (ValueError "test_size should be in the (0, 1) range")
  else
    let n_test := Z.to_nat (Qceiling (test_size * inject_Z (Z.of_nat n_samples))) in
    let n_train := n_samples - n_test in
    if bool_decide (n_train = 0) then
      Raise (ValueError "the resulting train set will be empty")
    else
      let rng := check_random_state process_rng random_state in
      let perm := permutation rng n_samples in
      let ind_test := take n_test perm in
      let ind_train := take n_train (drop n_test perm) in
      match take_rows X ind_train, take_rows X ind_test,
            take_rows y ind_train, take_rows y ind_test with
      | Ok X_train, Ok X_test, Ok y_train, Ok y_test =>
          Ok (X_train, X_test, y_train, y_test)
      | _, _, _, _ => Raise IndexError
      end.

End Split.

(** The number of positions where the two sequences agree. *)
Definition matches (y_true y_pred : list value) : nat :=
  length (filter (λ p, value_eqb p.1 p.2 = true) (zip y_true y_pred)).

(** Modelled from the spec: [accuracy_score] of scikit-learn, which src/
    only calls; the spec has it as the "fraction of exact label matches".
    Sequences of different lengths are refused.  (Of no samples at all
    scikit-learn takes the mean, which is not a number; here it is 0.) *)
Definition accuracy_score (y_true y_pred : list value) : result Q :=
  if bool_decide (length y_true = length y_pred) then
    Ok (Qred (Z.of_nat (matches y_true y_pred) # Pos.of_nat (length y_true)))
  else
    Raise (ValueError "Found input variables with inconsistent numbers of samples").

Definition as_number (v : value) : option Q :=
  match v with
  | Num q => Some q
  | Str _ => None
  end.

(** [np.array(row)] as a feature vector of the width the model was fitted on. *)
Definition feature_vector (m : classifier) (r : list value) : option (list Q) :=
  if bool_decide (length r = n_features m) then mapM as_number r else None.

(** Modelled from the spec: [model.predict(X)] of scikit-learn, which src/
    only calls ("applies the model's prediction function, returns the
    predicted label"): one label for each row of [X], and ValueError when
    [X] has no row or a row is not a vector of [n_features] numbers. *)
Definition predict (m : classifier) (X : list (list value)) : result (list value) :=
  match X with
  | [] => Raise (ValueError "Found array with 0 sample(s)")
  | _ =>
      match mapM (feature_vector m) X with
      | Some vs => Ok (decision m <$> vs)
      | None => Raise (ValueError "X does not have the shape the model was fitted on")
      end
  end.

End Lib.

(** ** preprocess.py *)

Module Preprocess.
Import Py Lib.

Record args := Args {
  train_dir : string;
  iris_data_dir : string;
  test_dir : string
}.

Section Script.

(** The parser of pandas, from the content of a file to the records of the
    frame (or the exception it raises), the order of the file system, and
    NumPy's generator. *)
Context (read_csv : file → result (list row)).
Context (scandir_rank : string * string → nat).
Context {RandomState : Type}.
Context (seeded : Z → RandomState).
Context (permutation : RandomState → nat → list nat).

(** [pd.read_csv(f, names=names)] *)
Definition pd_read_csv (f : string * string) : M (list row) :=
  global_ "pd";;
  content ← open_r f.1 f.2;
  lift (read_csv content).

(** The script; [process_rng] is the generator the process happens to start
    with. *)
Definition preprocess_py (process_rng : RandomState) (a : args) : M unit :=
  fresh_module;;
  import_ "pd";;
  import_ "train_test_split";;
  import_ "glob";;
  import_ "os";;
  import_ "argparse";;
  import_ "pickle";;
  let iris_data_dir := iris_data_dir a in
  let train_dir := train_dir a in
  let test_dir := test_dir a in
  (* Process data and split into train and test models *)
  let path := iris_data_dir in
  all_files ← glob_glob scandir_rank path "*.csv";
  global_ "pd";;
  frames ← mapM pd_read_csv all_files;
  dataset ← lift (pd_concat frames);
  let array := dataset in
  let X := features <$> array in
  let y := label <$> array in
  global_ "train_test_split";;
  '(X_train, X_test, Y_train, Y_test) ←
    lift (train_test_split seeded permutation process_rng X y (20 # 100) (Some 1%Z));
  (* Make train and test directories if they don't exist *)
  ensure_dir train_dir;;
  ensure_dir test_dir;;
  (* Output processed data to their respective folders *)
  pickle_dump (PMatrix X_test) test_dir "X_test.sav";;
  pickle_dump (PVector Y_test) test_dir "Y_test.sav";;
  pickle_dump (PMatrix X_train) train_dir "X_train.sav";;
  pickle_dump (PVector Y_train) train_dir "Y_train.sav".

(** *** What a run leaves behind *)

(** The content of the files [glob] lists, in its order. *)
Definition input_files (a : args) (w : World) : list file :=
  (scandir_order scandir_rank (listing (iris_data_dir a) "*.csv" w)).*2.

(** The partition the script computes from the input files. *)
Definition partition (process_rng : RandomState) (fs : list file)
    : result (list (list value) * list (list value) * list value * list value) :=
  frames ← mapM read_csv fs;
  dataset ← pd_concat frames;
  train_test_split seeded permutation process_rng
    (features <$> dataset) (label <$> dataset) (20 # 100) (Some 1%Z).

End Script.

(** The module namespace once the imports have run. *)
Definition preprocess_namespace : gmap string pyobj :=
  <["pickle" := PNamed "pickle"]>
  (<["argparse" := PNamed "argparse"]>
  (<["os" := PNamed "os"]>
  (<["glob" := PNamed "glob"]>
  (<["train_test_split" := PNamed "train_test_split"]>
  (<["pd" := PNamed "pd"]> ∅))))).

Definition started (w : World) : World :=
  set_namespace (λ _, preprocess_namespace) w.

(** The world once the four parts have been written. *)
Definition written (a : args)
    (parts : list (list value) * list (list value) * list value * list value)
    (w : World) : World :=
  let '(X_train, X_test, Y_train, Y_test) := parts in
  set_files
    (λ fs, <[(train_dir a, "Y_train.sav") := Pickle (PVector Y_train)]>
           (<[(train_dir a, "X_train.sav") := Pickle (PMatrix X_train)]>
           (<[(test_dir a, "Y_test.sav") := Pickle (PVector Y_test)]>
           (<[(test_dir a, "X_test.sav") := Pickle (PMatrix X_test)]> fs))))
    (set_dirs (λ ds, ensured (test_dir a) (ensured (train_dir a) ds)) w).

(** The four files and the part each of them holds. *)
Definition written_parts (a : args) (X_train X_test : list (list value))
    (Y_train Y_test : list value) : list (string * string * file) :=
  [((test_dir a, "X_test.sav"), Pickle (PMatrix X_test));
   ((test_dir a, "Y_test.sav"), Pickle (PVector Y_test));
   ((train_dir a, "X_train.sav"), Pickle (PMatrix X_train));
   ((train_dir a, "Y_train.sav"), Pickle (PVector Y_train))].

(** The four files of the train and test partitions. *)
Definition outputs (a : args) : list (string * string) :=
  [(test_dir a, "X_test.sav"); (test_dir a, "Y_test.sav");
   (train_dir a, "X_train.sav"); (train_dir a, "Y_train.sav")].

End Preprocess.

(** ** evaluate.py *)

Module Evaluate.
Import Py Lib.

Record args := Args {
  model_dir : string;
  test_dir : string;
  accuracy_dir : string
}.

(** [loaded_model.predict(loaded_validx)] *)
Definition call_predict (model X : pyobj) : M (list value) :=
  match model with
  | PModel m =>
      match X with
      | PMatrix rows => lift (predict m rows)
      | _ => raise (ValueError "Expected 2D array")
      end
  | _ => raise AttributeError
  end.

(** [accuracy_score(loaded_validy, predictions)] *)
Definition call_accuracy_score (y_true : pyobj) (y_pred : list value) : M Q :=
  global_ "accuracy_score";;
  match y_true with
  | PVector y => lift (accuracy_score y y_pred)
  | _ => raise (ValueError "Expected sequence or array-like")
  end.

Definition evaluate_py (a : args) : M unit :=
  fresh_module;;
  import_ "classification_report";;
  import_ "confusion_matrix";;
  import_ "accuracy_score";;
  import_ "SVC";;
  import_ "pickle";;
  import_ "argparse";;
  let model_dir := model_dir a in
  let test_dir := test_dir a in
  let accuracy_dir := accuracy_dir a in
  (* load the model and test datasets from their directories *)
  loaded_model ← pickle_load model_dir "model.pt";
  loaded_validx ← pickle_load test_dir "X_test.sav";
  loaded_validy ← pickle_load test_dir "Y_test.sav";
  (* Evaluate predictions and output to file *)
  predictions ← call_predict loaded_model loaded_validx;
  call_accuracy_score loaded_validy predictions;;
  print;;
  accuracy ← call_accuracy_score loaded_validy predictions;
  ensure_dir accuracy_dir;;
  pickle_dump (PFloat accuracy) accuracy_dir "accuracy_file".

End Evaluate.

(** ** deploy.py *)

Module Deploy.
Import Py Lib.

Record args := Args {
  test_dir : string;
  model_dir : string;
  accuracy_dir : string
}.

(** Python's [!=]: objects of different kinds are different. *)
Definition py_ne (a b : pyobj) : bool :=
  match a, b with
  | PStr s, PStr t => negb (String.eqb s t)
  | PFloat p, PFloat q => negb (Qeq_bool p q)
  | PNone, PNone => false
  | _, _ => true
  end.

(** Python's [>=]: defined between two numbers and between two strings. *)
Definition py_ge (a b : pyobj) : M bool :=
  match a, b with
  | PFloat p, PFloat q => mret (Qle_bool q p)
  | PStr s, PStr t => mret (String.leb t s)
  | _, _ => raise TypeError
  end.

(** [a + '/model.pt'] *)
Definition py_add (a : pyobj) (suffix : string) : M string :=
  match a with
  | PStr s => mret (s ++ suffix)
  | _ => raise TypeError
  end.

(** [d[key]] on a tag map. *)
Definition getitem (d : gmap string pyobj) (key : string) : M pyobj :=
  match d !! key with
  | Some o => mret o
  | None => raise (KeyError key)
  end.

(** *** The workspace calls of the Azure ML SDK

    The SDK is not part of the repository.  Its calls are modelled from
    the spec's model/endpoint registry (section 6): a "key-value store
    mapping model name → {artifact location, tag map}" and a "publish
    operation [that] maps endpoint name → {model reference, ...}".  A
    lookup that finds nothing raises [WebserviceException], as the script
    expects; registering, deleting and deploying are taken to succeed. *)

(** Modelled from the spec: [Model(workspace, name)], the latest model
    registered under [name]. *)
Definition Model_get (name : string) : M registered_model :=
  global_ "Model";;
  found ← gets (λ w, registry w !! name);
  match found with
  | Some m => mret m
  | None => raise WebserviceException
  end.

(** Modelled from the spec:
    [Model.register(model_path=, model_name=, tags=, description=, workspace=)]. *)
Definition Model_register (path name : string) (tags : gmap string pyobj)
    (description : string) : M registered_model :=
  let m := RegisteredModel path name tags description in
  modify (λ w, log (Registered m) (set_registry <[name := m]> w));;
  mret m.

(** Modelled from the spec: [Webservice(workspace, name=name)]. *)
Definition Webservice_get (name : string) : M webservice :=
  global_ "Webservice";;
  found ← gets (λ w, services w !! name);
  match found with
  | Some s => mret s
  | None => raise WebserviceException
  end.

(** Modelled from the spec: [service.delete()]. *)
Definition Webservice_delete (name : string) : M unit :=
  modify (λ w, log (Deleted name) (set_services (delete name) w)).

(** Modelled from the spec:
    [Model.deploy(workspace, name, [model], inference_config, aci_config)]
    followed by [service.wait_for_deployment(True)]; a name in use is
    refused. *)
Definition Model_deploy (name : string) (s : webservice) : M webservice :=
  global_ "Model";;
  taken ← gets (λ w, services w !! name);
  match taken with
  | Some _ => raise WebserviceException
  | None =>
      modify (λ w, log (Deployed name s) (set_services <[name := s]> w));;
      mret s
  end.

(** [env = Environment('iris-env'); env.register(workspace = workspace)] *)
Definition Environment_register (name : string) : M unit :=
  global_ "Environment";;
  modify (set_environments (union {[name]})).

(** *** The script *)

(** [register_model]: its body reads the module-level name [model_dir] and
    a literal model name; the parameters [output_dir] and [model_name] do
    not occur in it.  ([workspace] is the world itself.) *)
Definition register_model (output_dir model_name : string) (accuracy : pyobj)
    (test_dir : string) : M registered_model :=
  global_ "Model";;
  model_dir ← global_ "model_dir";
  path ← py_add model_dir "/model.pt";
  Model_register path "iris-classification-pipeline"
    {[ "accuracy" := accuracy; "test_data" := PStr test_dir ]}
    "Object recognition classifier".

Definition service_name : string := "iris-classification-service".
Definition model_name : string := "iris-classification-pipeline".

Section Script.

(** The address Azure gives the endpoint of a service. *)
Context (scoring_uri : webservice → string).

(** The registration gate: the model to serve and whether it is new. *)
Definition gate (model_dir : string) (accuracy : pyobj) (test_dir : string)
    : M (registered_model * bool) :=
  (* Register model if accuracy is higher or if test dataset has changed *)
  try_except
    (model ← Model_get model_name;
     prev_accuracy ← getitem (tags model) "accuracy";
     prev_test_dir ← getitem (tags model) "test_data";
     changed ← (if py_ne prev_test_dir (PStr test_dir) then mret true
                else py_ge prev_accuracy accuracy);
     if changed : bool then
       model ← register_model model_dir model_name accuracy test_dir;
       mret (model, true)
     else mret (model, false))
    is_WebserviceException
    (print;;
     model ← register_model model_dir model_name accuracy test_dir;
     mret (model, true)).

(** [if new_model: ... else: ...]: the service whose address is written out. *)
Definition publish (model : registered_model) (new_model : bool) : M webservice :=
  if new_model then
    global_ "InferenceConfig";;
    global_ "AciWebservice";;
    try_except
      (Webservice_get service_name;; Webservice_delete service_name)
      is_WebserviceException
      print;;
    service ← Model_deploy service_name
                {| served_model := model; entry_script := "score.py";
                   cpu_cores := 2; memory_gb := 4 |};
    mret service
  else
    Webservice_get service_name.

Definition deploy_py (a : args) : M unit :=
  fresh_module;;
  import_ "os";;
  import_ "accuracy_score";;
  import_ "pickle";;
  import_ "Webservice";;
  import_ "InferenceConfig";;
  import_ "Environment";;
  import_ "Workspace";;
  import_ "Model";;
  import_ "Run";;
  import_ "CondaDependencies";;
  import_ "AciWebservice";;
  import_ "WebserviceException";;
  import_ "argparse";;
  def_ "register_model";;
  (* Get run context *)
  global_ "Run";;
  (* Get arguments from parser *)
  let test_dir := test_dir a in
  let accuracy_dir := accuracy_dir a in
  let model_dir := model_dir a in
  assign "test_dir" (PStr test_dir);;
  assign "accuracy_dir" (PStr accuracy_dir);;
  assign "model_dir" (PStr model_dir);;
  ensure_dir model_dir;;
  (* Register environment to re-use later *)
  Environment_register "iris-env";;
  (* Read Accuracy *)
  accuracy ← pickle_load accuracy_dir "accuracy_file";
  (* Set up Environment *)
  global_ "Environment";;
  global_ "CondaDependencies";;
  '(model, new_model) ← gate model_dir accuracy test_dir;
  (* Deploy new webservice if new model was registered *)
  service ← publish model new_model;
  (* Output scoring url to file *)
  print;;
  write_text (scoring_uri service) model_dir "scoring_uri.txt".

End Script.

(** *** What a run leaves behind *)

(** The module namespace once the imports, the [def] and the assignments
    of the arguments have run. *)
Definition deploy_namespace (a : args) : gmap string pyobj :=
  <["model_dir" := PStr (model_dir a)]>
  (<["accuracy_dir" := PStr (accuracy_dir a)]>
  (<["test_dir" := PStr (test_dir a)]>
  (<["register_model" := PNamed "register_model"]>
  (<["argparse" := PNamed "argparse"]>
  (<["WebserviceException" := PNamed "WebserviceException"]>
  (<["AciWebservice" := PNamed "AciWebservice"]>
  (<["CondaDependencies" := PNamed "CondaDependencies"]>
  (<["Run" := PNamed "Run"]>
  (<["Model" := PNamed "Model"]>
  (<["Workspace" := PNamed "Workspace"]>
  (<["Environment" := PNamed "Environment"]>
  (<["InferenceConfig" := PNamed "InferenceConfig"]>
  (<["Webservice" := PNamed "Webservice"]>
  (<["pickle" := PNamed "pickle"]>
  (<["accuracy_score" := PNamed "accuracy_score"]>
  (<["os" := PNamed "os"]> ∅)))))))))))))))).

(** The world in which the accuracy is read and the gate runs. *)
Definition prepared (a : args) (w : World) : World :=
  set_environments (union {["iris-env"]})
    (set_dirs (ensured (model_dir a))
       (set_namespace (λ _, deploy_namespace a) w)).

(** The model [register_model] registers when the module-level
    [model_dir] is [model_dir]. *)
Definition new_model (model_dir : string) (accuracy : pyobj) (test_dir : string)
    : registered_model :=
  {| model_path := model_dir ++ "/model.pt";
     Py.model_name := "iris-classification-pipeline";
     tags := {[ "accuracy" := accuracy; "test_data" := PStr test_dir ]};
     description := "Object recognition classifier" |}.

Definition new_service (m : registered_model) : webservice :=
  {| served_model := m; entry_script := "score.py";
     cpu_cores := 2; memory_gb := 4 |}.

(** The workspace after [Model.register] ... *)
Definition register (m : registered_model) (w : World) : World :=
  log (Registered m) (set_registry <[Py.model_name m := m]> w).

(** ... and after the endpoint has been deleted, if there was one, and
    deployed anew. *)
Definition replace_service (s : webservice) (w : World) : World :=
  log (Deployed service_name s)
    (set_services <[service_name := s]>
       match services w !! service_name with
       | Some _ => log (Deleted service_name) (set_services (delete service_name) w)
       | None => w
       end).

(** The calls the stage makes when it registers, latest first. *)
Definition registering_calls (w : World) (nm : registered_model) : list event :=
  Deployed service_name (new_service nm) ::
  match services w !! service_name with
  | Some _ => [Deleted service_name; Registered nm]
  | None => [Registered nm]
  end.

(** *** The gate in the words of the specification *)

(** What the registry holds under the model name when the stage starts:
    nothing, or a model tagged with an accuracy and a test-set identity. *)
Definition stored (w : World) (previous : option (Q * string)) : Prop :=
  match previous with
  | None => registry w !! model_name = None
  | Some (p, d) =>
      ∃ m, registry w !! model_name = Some m ∧
           tags m !! "accuracy" = Some (PFloat p) ∧
           tags m !! "test_data" = Some (PStr d)
  end.

(** "No such registration exists, or the test-data identity differs from
    the one used previously, or the newly computed accuracy is not strictly
    improved relative to the previous." *)
Definition registration_due (previous : option (Q * string))
    (accuracy : Q) (test_dir : string) : Prop :=
  match previous with
  | None => True
  | Some (p, d) => d ≠ test_dir ∨ ¬ (p < accuracy)%Q
  end.

(** *** The gate as the script runs it *)

(** What the script reads of the model registered under the name: its
    accuracy tag and its test-data tag, each [None] when the model does
    not carry it. *)
Definition found_tags (w : World) : option (option pyobj * option pyobj) :=
  (λ m, (tags m !! "accuracy", tags m !! "test_data")) <$> registry w !! model_name.

(** The runs in which the script registers: no model is registered under
    the name; or the registered model carries both tags and its test-data
    tag is not the current identity; or it is, and the accuracy tag is a
    number that the new accuracy does not exceed. *)
Definition registers (w : World) (accuracy : Q) (test_dir : string) : Prop :=
  match found_tags w with
  | None => True
  | Some (Some prev_accuracy, Some prev_test_dir) =>
      prev_test_dir ≠ PStr test_dir ∨
      ∃ p, prev_accuracy = PFloat p ∧ ¬ (p < accuracy)%Q
  | Some _ => False
  end.

(** The runs the gate ends with an exception: a tag is missing, or the
    test set is the current one and the accuracy tag is not a number. *)
Definition gate_exception (w : World) (test_dir : string) : option exn :=
  match found_tags w with
  | None => None
  | Some (None, _) => Some (KeyError "accuracy")
  | Some (Some _, None) => Some (KeyError "test_data")
  | Some (Some prev_accuracy, Some prev_test_dir) =>
      if py_ne prev_test_dir (PStr test_dir) then None
      else match prev_accuracy with
           | PFloat _ => None
           | _ => Some TypeError
           end
  end.

(** The workspace calls made between [w] and [w'], latest first. *)
Definition performed (w w' : World) : list event :=
  take (length (calls w') - length (calls w)) (calls w').

(** The models registered by a list of calls, latest first. *)
Definition registrations (calls : list event) : list registered_model :=
  omap (λ e, match e with Registered m => Some m | _ => None end) calls.

End Deploy.

(** ** score.py *)

Module Score.
Import Py Lib.

(** What [json.loads] returns. *)
#[local] Set Warnings "-register-all".
Inductive json :=
| JNull
| JBool (b : bool)
| JNumber (q : Q)
| JString (s : string)
| JArray (items : list json)
| JObject (members : list (string * json)).

(** A JSON object becomes a [dict]: of two members with one key the later
    one stays. *)
Fixpoint dict_get (members : list (string * json)) (key : string) : option json :=
  match members with
  | [] => None
  | (k, v) :: rest =>
      match dict_get rest key with
      | Some later => Some later
      | None => if String.eqb k key then Some v else None
      end
  end.

(** [doc[key]] with a string key: only a [dict] has string keys. *)
Definition subscript (doc : json) (key : string) : result json :=
  match doc with
  | JObject members =>
      match dict_get members key with
      | Some v => Ok v
      | None => Raise (KeyError key)
      end
  | _ => Raise TypeError
  end.

Definition scalar (j : json) : option value :=
  match j with
  | JNumber q => Some (Num q)
  | JString s => Some (Str s)
  | _ => None
  end.

(** [np.array(data)] when it is a vector: a list of numbers or strings. *)
Definition np_array (data : json) : option (list value) :=
  match data with
  | JArray items => mapM scalar items
  | _ => None
  end.

(** [os.getenv(name)] *)
Definition os_getenv (name : string) : M (option string) :=
  global_ "os";; gets (λ w, environ w !! name).

(** The module body: the imports and the two definitions. *)
Definition score_py : M unit :=
  fresh_module;;
  import_ "json";;
  import_ "np";;
  import_ "os";;
  import_ "pickle";;
  import_ "SVC";;
  def_ "init";;
  def_ "run".

(** [init()]: binds the module-level name [model]. *)
Definition init : M unit :=
  (* Get registered model *)
  global_ "os";;
  model_dir ← os_getenv "AZUREML_MODEL_DIR";
  match model_dir with
  | None => raise TypeError
  | Some d =>
      model ← pickle_load d "model.pt";
      assign "model" model
  end.

Section Handler.

(** The JSON parser: [None] for a text that is not JSON. *)
Context (json_loads : string → option json).

(** [run(raw_data)] *)
Definition run (raw_data : string) : M (list value) :=
  global_ "np";;
  global_ "json";;
  doc ← match json_loads raw_data with
        | Some doc => mret doc
        | None => raise JSONDecodeError
        end;
  data_json ← lift (subscript doc "data");
  let data := np_array data_json in
  (* make prediction *)
  model ← global_ "model";
  prediction ←
    match model with
    | PModel m =>
        match data with
        | Some v => lift (predict m [v])
        | None => raise (ValueError "Expected 2D array")
        end
    | _ => raise AttributeError
    end;
  (* Output prediction *)
  mret prediction.

(** The service answering the requests [raws] one after the other. *)
Fixpoint serve (raws : list string) (w : World) : list (result (list value)) * World :=
  match raws with
  | [] => ([], w)
  | raw :: rest =>
      let '(r, w') := run raw w in
      let '(rs, w'') := serve rest w' in
      (r :: rs, w'')
  end.

End Handler.

End Score.

(** ** The pipeline the notebook submits *)

Module Pipeline.

(** A [PythonScriptStep]: the script and the data it declares as inputs and
    outputs, by the name of the [PipelineData] (or the data reference). *)
Record step := PythonScriptStep {
  script_name : string;
  inputs : list string;
  outputs : list string;
  allow_reuse : bool
}.

Global Instance step_eq_dec : EqDecision step.
Proof. solve_decision. Defined.

Definition datastore_reference : string := "datastore_reference".
Definition iris_data_dir : string := "iris_data_dir".
Definition train_dir : string := "train_dir".
Definition output_dir : string := "output_dir".
Definition accuracy_dir : string := "accuracy_dir".
Definition model_dir : string := "model_dir".
Definition test_dir : string := "test_dir".

Definition ingestion_step : step :=
  {| script_name := "ingest.py";
     inputs := [datastore_reference];
     outputs := [iris_data_dir];
     allow_reuse := true |}.

Definition preprocess_step : step :=
  {| script_name := "preprocess.py";
     inputs := [iris_data_dir];
     outputs := [train_dir; test_dir];
     allow_reuse := true |}.

Definition train_step : step :=
  {| script_name := "train.py";
     inputs := [train_dir];
     outputs := [model_dir];
     allow_reuse := false |}.

Definition evaluate_step : step :=
  {| script_name := "evaluate.py";
     inputs := [test_dir; model_dir];
     outputs := [accuracy_dir];
     allow_reuse := true |}.

Definition deploy_step : step :=
  {| script_name := "deploy.py";
     inputs := [test_dir; accuracy_dir; model_dir];
     outputs := [output_dir];
     allow_reuse := true |}.

(** [Pipeline(workspace=ws, steps=[...])] *)
Definition pipeline : list step :=
  [ingestion_step; preprocess_step; train_step; evaluate_step; deploy_step].

(** [feeds p s]: [s] declares as an input something [p] declares as an
    output.  This is the only ordering the notebook gives the service. *)
Definition feeds (p s : step) : Prop :=
  ∃ d : string, d ∈ outputs p ∧ d ∈ inputs s.

Global Instance feeds_dec p s : Decision (feeds p s).
Proof.
  refine (cast_if (decide (Exists (λ d, d ∈ inputs s) (outputs p))));
    unfold feeds; rewrite ?Exists_exists in *; naive_solver.
Defined.

(** Modelled from the spec: the statuses of a Stage Execution (section 3),
    which the Azure ML service keeps. *)
Inductive status := pending | running | succeeded | failed | reused.

Global Instance status_eq_dec : EqDecision status.
Proof. solve_decision. Defined.

(** The statuses of a Run, by script; a stage not yet heard of is pending. *)
Definition status_of (st : gmap string status) (s : step) : status :=
  default pending (st !! script_name s).

Definition done (st : gmap string status) (s : step) : Prop :=
  status_of st s = succeeded ∨ status_of st s = reused.

Section Orchestrator.

Context (steps : list step).

(** Every stage producing an input of [s] has finished well. *)
Definition ready (st : gmap string status) (s : step) : Prop :=
  ∀ p, p ∈ steps → feeds p s → done st p.

(** Modelled from the spec: the Run Orchestrator (the Azure ML pipeline
    service, to which src/ only submits the steps).  Section 4.2: a stage
    is executed, or reused where the policy allows, once the stages
    producing its inputs have succeeded; a running stage ends succeeded or
    failed; "failed is terminal and propagates transitively to dependents,
    which are never started". *)
Inductive transition : gmap string status → gmap string status → Prop :=
| t_start st s :
    s ∈ steps → status_of st s = pending → ready st s →
    transition st (<[script_name s := running]> st)
| t_reuse st s :
    s ∈ steps → status_of st s = pending → allow_reuse s = true → ready st s →
    transition st (<[script_name s := reused]> st)
| t_succeed st s :
    s ∈ steps → status_of st s = running →
    transition st (<[script_name s := succeeded]> st)
| t_fail st s :
    s ∈ steps → status_of st s = running →
    transition st (<[script_name s := failed]> st).

(** The states a Run goes through, from all stages pending. *)
Definition reachable (st : gmap string status) : Prop := rtc transition ∅ st.

(** The invariant of a Run: a stage that left [pending] had all the stages
    that feed it finished well. *)
Definition started_ready (st : gmap string status) : Prop :=
  ∀ s, s ∈ steps → status_of st s ≠ pending → ready st s.

End Orchestrator.

(** [downstream f d]: the inputs of [d] depend, through any number of
    stages, on an output of [f]. *)
Definition downstream (steps : list step) (f d : step) : Prop :=
  tc (λ p s, p ∈ steps ∧ s ∈ steps ∧ feeds p s) f d.

End Pipeline.

(** ** Concrete runs *)

Module Examples.
Import Py Lib.

(** A classifier of four features that answers with one label. *)
Definition always_setosa : classifier :=
  {| n_features := 4; decision := λ _, Str "Iris-setosa" |}.

Definition sample : list value := [Num 5.1; Num 3.5; Num 1.4; Num 0.2].

(** A run of the Evaluate stage whose inputs are all in place. *)
Definition evaluate_inputs : World :=
  mkWorld
    {[ ("model", "model.pt") := Pickle (PModel always_setosa);
       ("test", "X_test.sav") := Pickle (PMatrix [sample]);
       ("test", "Y_test.sav") := Pickle (PVector [Str "Iris-setosa"]) ]}
    {[ "model"; "test"; "accuracy" ]} ∅ ∅ ∅ ∅ ∅ [].

(** The Deploy stage finding a model registered with accuracy 0.90 on
    test set "A", and the accuracy [accuracy] computed by this run. *)
Definition registered_before : registered_model :=
  {| model_path := "previous/model.pt";
     model_name := "iris-classification-pipeline";
     tags := {[ "accuracy" := PFloat 0.90; "test_data" := PStr "A" ]};
     description := "Object recognition classifier" |}.

Definition served_before : webservice :=
  {| served_model := registered_before; entry_script := "score.py";
     cpu_cores := 2; memory_gb := 4 |}.

Definition deploy_inputs (accuracy : Q) : World :=
  mkWorld
    {[ ("accuracy", "accuracy_file") := Pickle (PFloat accuracy) ]}
    {[ "A"; "model"; "accuracy" ]} ∅ ∅
    {[ "iris-classification-pipeline" := registered_before ]}
    ∅
    {[ "iris-classification-service" := served_before ]}
    [].

Definition deploy_args : Deploy.args :=
  {| Deploy.test_dir := "A"; Deploy.model_dir := "model";
     Deploy.accuracy_dir := "accuracy" |}.

(** The model [register_model] registers in such a run. *)
Definition registered_now (accuracy : Q) : registered_model :=
  {| model_path := "model/model.pt";
     model_name := "iris-classification-pipeline";
     tags := {[ "accuracy" := PFloat accuracy; "test_data" := PStr "A" ]};
     description := "Object recognition classifier" |}.

Definition uri (s : webservice) : string := "http://iris/score".

(** For the Preprocess stage: a parser that reads every text that is not
    empty as the same two records, and a generator whose state is its seed
    and whose permutation is the reversal. *)
Definition two_records : list row :=
  [(Num 5.1, Num 3.5, Num 1.4, Num 0.2, Str "Iris-setosa");
   (Num 7.0, Num 3.2, Num 4.7, Num 1.4, Str "Iris-versicolor")].

Definition reads_two_records (f : file) : result (list row) :=
  match f with
  | Text EmptyString => Ok []
  | Text _ => Ok two_records
  | Pickle _ => Raise (ValueError "not a text file")
  end.

Definition reversal (state : Z) (n : nat) : list nat := rev (seq 0 n).

Definition preprocess_args : Preprocess.args :=
  {| Preprocess.train_dir := "train"; Preprocess.iris_data_dir := "data";
     Preprocess.test_dir := "test" |}.

(** Two worlds with the same data set: the second has another file beside
    it and the output directories already made. *)
Definition ingested : World :=
  mkWorld {[ ("data", "iris.csv") := Text "5.1,3.5,1.4,0.2,Iris-setosa" ]}
          {[ "data" ]} ∅ ∅ ∅ ∅ ∅ [].

Definition ingested_elsewhere : World :=
  mkWorld {[ ("data", "iris.csv") := Text "5.1,3.5,1.4,0.2,Iris-setosa";
             ("data", "README.txt") := Text "Iris data" ]}
          {[ "data"; "train"; "test" ]} ∅ ∅ ∅ ∅ ∅ [].

(** A world in which the ingestion left a CSV file without content. *)
Definition nothing_ingested : World :=
  mkWorld {[ ("data", "iris.csv") := Text EmptyString;
             ("data", "README.txt") := Text "Iris data" ]}
          {[ "data" ]} ∅ ∅ ∅ ∅ ∅ [].

(** The scoring process started on a model directory holding the
    classifier, and a parser that knows one request body (the one the
    notebook sends) and takes every other text for malformed. *)
Definition score_inputs : World :=
  mkWorld
    {[ ("/var/azureml-app/model", "model.pt") := Pickle (PModel always_setosa) ]}
    {[ "/var/azureml-app/model" ]}
    {[ "AZUREML_MODEL_DIR" := "/var/azureml-app/model" ]}
    ∅ ∅ ∅ ∅ [].

Definition measurements : list Q := [6.7; 3.0; 5.2; 2.3]%Q.

Definition quote : string := String (Ascii.ascii_of_nat 34) EmptyString.

Definition request_body : string :=
  "{" ++ quote ++ "data" ++ quote ++ ": [6.7, 3.0, 5.2, 2.3]}".

Definition only_request (raw : string) : option Score.json :=
  if String.eqb raw request_body
  then Some (Score.JObject [("data", Score.JArray (Score.JNumber <$> measurements))])
  else None.

End Examples.

(** ** ingest.py *)

Module Ingest.
Import Py Lib.

Record args := Args {
  iris_data_dir : string;
  urls : string
}.

Section Script.

(** The network: what retrieving a URL gives, the body or the exception
    [urllib] raises. *)
Context (urlopen : string → result string).

(** [urllib.request.urlretrieve(url, dir + '/base')]: the URL is opened
    first, the file only once there is a response. *)
Definition urlretrieve (url dir base : string) : M unit :=
  global_ "urllib";;
  body ← lift (urlopen url);
  write_text body dir base.

Definition ingest_py (a : args) : M unit :=
  fresh_module;;
  import_ "os";;
  import_ "urllib";;
  import_ "argparse";;
  let iris_data_dir := iris_data_dir a in
  let urls := urls a in
  ensure_dir iris_data_dir;;
  (* Download data from URL *)
  print;;
  urlretrieve urls iris_data_dir "iris.csv".

End Script.

End Ingest.

(** ** train.py *)

Module Train.
Import Py Lib.

Record args := Args {
  train_dir : string;
  output_dir : string
}.

Section Script.

(** [SVC(gamma='auto').fit(X, y)] of scikit-learn: the fitted classifier,
    or the exception the fit raises. *)
Context (fit : list (list value) → list value → result classifier).

(** [model = SVC(gamma='auto'); model.fit(loaded_X_train, loaded_Y_train)] *)
Definition call_fit (X y : pyobj) : M classifier :=
  global_ "SVC";;
  match X, y with
  | PMatrix rows, PVector labels => lift (fit rows labels)
  | _, _ => raise (ValueError "Expected 2D array")
  end.

Definition train_py (a : args) : M unit :=
  fresh_module;;
  import_ "os";;
  import_ "SVC";;
  import_ "pickle";;
  import_ "argparse";;
  let output_dir := output_dir a in
  let train_dir := train_dir a in
  ensure_dir output_dir;;
  (* load the model from the training directory *)
  loaded_X_train ← pickle_load train_dir "X_train.sav";
  loaded_Y_train ← pickle_load train_dir "Y_train.sav";
  (* Fit the model with training dataset *)
  model ← call_fit loaded_X_train loaded_Y_train;
  (* Output model to directory *)
  pickle_dump (PModel model) output_dir "model.pt".

End Script.

End Train.

(** ** init-lab-vm.ps1 *)

Module LabVm.

(** The part of the machine the script touches: the scheduled tasks, each
    enabled or not, and the content of the hosts file. *)
Record machine := Machine {
  tasks : gmap string bool;
  hosts : string
}.

Definition tab : string := String (Ascii.ascii_of_nat 9) EmptyString.

(** The end of line [Add-Content] writes on Windows. *)
Definition newline : string :=
  String (Ascii.ascii_of_nat 13) (String (Ascii.ascii_of_nat 10) EmptyString).

(** [Get-ScheduledTask -TaskName name | Disable-ScheduledTask]: a task that
    is not there gives an error message and nothing to disable; the script
    goes on. *)
Definition Disable_ScheduledTask (name : string) (m : machine) : machine :=
  match tasks m !! name with
  | Some _ => {| tasks := <[name := false]> (tasks m); hosts := hosts m |}
  | None => m
  end.

(** [Add-content -path $HostFile -value value]: the value and an end of line
    go after what the file holds. *)
Definition Add_content (value : string) (m : machine) : machine :=
  {| tasks := tasks m; hosts := hosts m ++ value ++ newline |}.

(** ["address `t name"] *)
Definition entry (address name : string) : string :=
  address ++ " " ++ tab ++ " " ++ name.

Definition init_lab_vm (m : machine) : machine :=
  let m := Disable_ScheduledTask "ServerManager" m in
  let m := Add_content (entry "192.168.1.11" "DCA.root.contoso.com") m in
  let m := Add_content (entry "192.168.1.12" "DCB.root.contoso.com") m in
  let m := Add_content (entry "192.168.1.21" "Member01.root.contoso.com") m in
  let m := Add_content (entry "192.168.1.22" "Member02.root.contoso.com") m in
  let m := Add_content (entry "192.168.1.23" "Member03.root.contoso.com") m in
  let m := Add_content (entry "192.168.1.24" "Member04.root.contoso.com") m in
  let m := Add_content (entry "192.168.1.32" "Client02.root.contoso.com") m in
  let m := Add_content (entry "192.168.1.100" "FABDC.fabrikam.com") m in
  let m := Add_content (entry "192.168.1.101" "FABMember.fabrikam.com") m in
  Add_content (entry "192.168.1.102" "FABClient.fabrikam.com") m.

(** The ten lines of the script, as one text. *)
Definition added_lines : string :=
  String.concat newline
    [entry "192.168.1.11" "DCA.root.contoso.com";
     entry "192.168.1.12" "DCB.root.contoso.com";
     entry "192.168.1.21" "Member01.root.contoso.com";
     entry "192.168.1.22" "Member02.root.contoso.com";
     entry "192.168.1.23" "Member03.root.contoso.com";
     entry "192.168.1.24" "Member04.root.contoso.com";
     entry "192.168.1.32" "Client02.root.contoso.com";
     entry "192.168.1.100" "FABDC.fabrikam.com";
     entry "192.168.1.101" "FABMember.fabrikam.com";
     entry "192.168.1.102" "FABClient.fabrikam.com"] ++ newline.

(** [n] copies of a text, one after the other. *)
Fixpoint repeated (n : nat) (s : string) : string :=
  match n with
  | O => EmptyString
  | S n' => s ++ repeated n' s
  end.

End LabVm.

(** ** The order of the steps *)

Module PipelineOrder.
Import Pipeline.

(** The place of a step in the list given to [Pipeline(steps=[...])]. *)
Definition position (s : step) : nat :=
  default (length pipeline) (fst <$> list_find (λ x, x = s) pipeline).

End PipelineOrder.

(** ** More concrete runs *)

Module MoreExamples.
Import Py Lib Examples.

Definition blank : World := mkWorld ∅ ∅ ∅ ∅ ∅ ∅ ∅ [].

(** The network answering for one address only. *)
Definition iris_url : string :=
  "https://raw.githubusercontent.com/cloudacademy/azure-lab-artifacts/master/building-azure-ml-pipelines-using-the-azure-ml-sdk/iris.csv".

Definition download (url : string) : result string :=
  if String.eqb url iris_url then Ok "5.1,3.5,1.4,0.2,Iris-setosa"
  else Raise (ValueError "unknown url type").

Definition ingest_args : Ingest.args :=
  {| Ingest.iris_data_dir := "data"; Ingest.urls := iris_url |}.

Definition ingest_args_elsewhere : Ingest.args :=
  {| Ingest.iris_data_dir := "data"; Ingest.urls := "iris.csv" |}.

(** A fit that gives the same classifier for all data. *)
Definition fits_setosa (X : list (list value)) (y : list value) : result classifier :=
  Ok always_setosa.

Definition deploy_args_after_evaluate : Deploy.args :=
  {| Deploy.test_dir := "test"; Deploy.model_dir := "model";
     Deploy.accuracy_dir := "accuracy" |}.

Definition evaluate_args : Evaluate.args :=
  {| Evaluate.model_dir := "model"; Evaluate.test_dir := "test";
     Evaluate.accuracy_dir := "accuracy" |}.

(** Registered models as another client, or a registry that keeps tags as
    text, could have left them. *)
Definition registered_untagged : registered_model :=
  {| model_path := "previous/model.pt";
     model_name := "iris-classification-pipeline";
     tags := ∅;
     description := "Object recognition classifier" |}.

Definition registered_with_text_tags : registered_model :=
  {| model_path := "previous/model.pt";
     model_name := "iris-classification-pipeline";
     tags := {[ "accuracy" := PStr "0.9"; "test_data" := PStr "A" ]};
     description := "Object recognition classifier" |}.

Definition deploy_inputs_with (m : registered_model)
    (endpoints : gmap string webservice) : World :=
  mkWorld
    {[ ("accuracy", "accuracy_file") := Pickle (PFloat 0.95) ]}
    {[ "A"; "model"; "accuracy" ]} ∅ ∅
    {[ "iris-classification-pipeline" := m ]}
    ∅ endpoints [].

(** The Deploy stage finding the accuracy 0.85 of this run and a model
    whose tags came back as text. *)
Definition text_tagged_inputs : World :=
  mkWorld
    {[ ("accuracy", "accuracy_file") := Pickle (PFloat 0.85) ]}
    {[ "A"; "model"; "accuracy" ]} ∅ ∅
    {[ "iris-classification-pipeline" := registered_with_text_tags ]}
    ∅
    {[ "iris-classification-service" :=
         {| served_model := registered_with_text_tags; entry_script := "score.py";
            cpu_cores := 2; memory_gb := 4 |} ]}
    [].

(** A file system that hands out all entries in one fixed order, and two
    that put [a.csv], respectively [b.csv], first. *)
Definition any_order (entry : string * string) : nat := 0.

Definition a_first (entry : string * string) : nat :=
  if String.eqb entry.2 "a.csv" then 0 else 1.

Definition b_first (entry : string * string) : nat :=
  if String.eqb entry.2 "b.csv" then 0 else 1.

(** The other permutation of two samples a generator can draw. *)
Definition in_order (state : Z) (n : nat) : list nat := seq 0 n.

(** Two lines of the data set, the records they are read as, and a parser
    that reads a file of one of the lines or of both. *)
Definition setosa_line : string := "5.1,3.5,1.4,0.2,Iris-setosa".
Definition versicolor_line : string := "7.0,3.2,4.7,1.4,Iris-versicolor".

Definition line_feed : string := String (Ascii.ascii_of_nat 10) EmptyString.

Definition two_lines : string := setosa_line ++ line_feed ++ versicolor_line.

Definition setosa_row : row :=
  (Num 5.1, Num 3.5, Num 1.4, Num 0.2, Str "Iris-setosa").
Definition versicolor_row : row :=
  (Num 7.0, Num 3.2, Num 4.7, Num 1.4, Str "Iris-versicolor").

Definition reads_lines (f : file) : result (list row) :=
  match f with
  | Text s =>
      if String.eqb s setosa_line then Ok [setosa_row]
      else if String.eqb s versicolor_line then Ok [versicolor_row]
      else if String.eqb s two_lines then Ok [setosa_row; versicolor_row]
      else Ok []
  | Pickle _ => Raise (ValueError "not a text file")
  end.

(** A data directory with two CSV files of one record each. *)
Definition two_files : World :=
  mkWorld {[ ("data", "a.csv") := Text setosa_line;
             ("data", "b.csv") := Text versicolor_line ]}
          {[ "data" ]} ∅ ∅ ∅ ∅ ∅ [].

(** An input directory whose name reads as a pattern: [data[1]] is empty,
    the records are in [data1]. *)
Definition bracket_args : Preprocess.args :=
  {| Preprocess.train_dir := "train"; Preprocess.iris_data_dir := "data[1]";
     Preprocess.test_dir := "test" |}.

Definition beside_the_input : World :=
  mkWorld {[ ("data1", "iris.csv") := Text two_lines ]}
          {[ "data1"; "data[1]" ]} ∅ ∅ ∅ ∅ ∅ [].

(** A parser that knows the empty object only. *)
Definition only_empty_object (raw : string) : option Score.json :=
  if String.eqb raw "{}" then Some (Score.JObject []) else None.

End MoreExamples.

(** * Properties *)

(** ** The sidecar *)

Section SidecarFacts.
Import Sidecar.

Lemma step_index_html (s : state) (o : outcome) :
  index_html (step s o) =
  match at_ s with
  | Polling => out o
  | _ => index_html s
  end.
Proof. unfold step. destruct (at_ s), (succeeded o); reflexivity. Qed.

Lemma step_phase (s : state) (o : outcome) :
  at_ (step s o) =
  match at_ s with
  | AwaitToken => if succeeded o then AwaitLogin else AwaitToken
  | AwaitLogin => if succeeded o then Polling else AwaitLogin
  | Polling => Polling
  end.
Proof. unfold step. destruct (at_ s) eqn:E, (succeeded o); simpl; congruence. Qed.

(** From any state on, the file holds the output of the last poll made
    since, and what it held before when none was made. *)
Lemma foldl_step_index_html (os : list outcome) (s : state) :
  index_html (foldl step s os) =
  default (index_html s) (last (polls_from (at_ s) os)).
Proof.
  revert s. induction os as [|o os IH]; intros s; [reflexivity|].
  simpl foldl. rewrite IH, step_index_html, step_phase. simpl polls_from.
  destruct (at_ s); try reflexivity.
  destruct (polls_from Polling os) as [|p ps]; [reflexivity|].
  rewrite last_cons_cons.
  destruct (last (p :: ps)) eqn:E; [reflexivity|].
  by apply last_None in E.
Qed.

(** C5, as the code has it: the served file always holds what the most
    recent poll printed on standard output, whether that poll succeeded or
    failed, and the placeholder as long as no poll was made. *)
Theorem served_file_is_latest_poll_output (os : list outcome) :
  index_html (run os) = default placeholder (last (polls os)).
Proof. unfold run, polls. by rewrite foldl_step_index_html. Qed.

(** C5, as stated, fails: once the token is there and the login has
    succeeded, a poll that fails without printing anything leaves the served
    file empty, not with the placeholder it held before. *)
Lemma failed_poll_empties_served_file :
  let ok := {| out := "token"; status := 0 |} in
  let denied := {| out := ""; status := 1 |} in
  let before := run [ok; ok] in
  at_ before = Polling ∧
  succeeded denied = false ∧
  index_html before = placeholder ∧
  index_html (step before denied) = "" ∧
  index_html (step before denied) ≠ index_html before.
Proof. repeat split; try reflexivity. discriminate. Qed.

End SidecarFacts.

(** ** The accuracy of the Evaluate stage *)

Section AccuracyFacts.
Import Py Lib.

Lemma matches_all (y_true y_pred : list value) :
  Forall2 (λ t p, value_eqb t p = true) y_true y_pred →
  matches y_true y_pred = length y_true.
Proof.
  unfold matches. induction 1 as [|t p ts ps Htp _ IH]; [reflexivity|].
  simpl zip. rewrite filter_cons_True by exact Htp. simpl. by rewrite IH.
Qed.

Lemma matches_none (y_true y_pred : list value) :
  Forall2 (λ t p, value_eqb t p = false) y_true y_pred →
  matches y_true y_pred = 0.
Proof.
  unfold matches. induction 1 as [|t p ts ps Htp _ IH]; [reflexivity|].
  simpl zip. rewrite filter_cons_False; [exact IH|]. simpl. congruence.
Qed.

Lemma Qred_whole (n : nat) :
  n ≠ 0 → Qred (Z.of_nat n # Pos.of_nat n) = 1%Q.
Proof.
  intros Hn. change 1%Q with (Qred 1). apply Qred_complete.
  unfold Qeq. simpl. lia.
Qed.

Lemma Qred_nothing (p : positive) : Qred (0 # p) = 0%Q.
Proof. change 0%Q with (Qred 0). apply Qred_complete. reflexivity. Qed.

(** C4: the accuracy is the fraction of positions where the prediction
    equals the label; on sequences that are not empty it is 1 when they
    agree at every position ([agree = true]) and 0 when they agree at none
    ([agree = false]). *)
Theorem accuracy_score_all_or_nothing (agree : bool) (y_true y_pred : list value) :
  y_true ≠ [] →
  Forall2 (λ t p, value_eqb t p = agree) y_true y_pred →
  accuracy_score y_true y_pred = Ok (if agree then 1%Q else 0%Q) ∧
  accuracy_score y_true y_pred =
    Ok (Qred (Z.of_nat (matches y_true y_pred) # Pos.of_nat (length y_true))).
Proof.
  intros Hne H. pose proof (Forall2_length _ _ _ H) as Hlen.
  unfold accuracy_score. rewrite bool_decide_eq_true_2 by exact Hlen.
  split; [|reflexivity]. f_equal. destruct agree.
  - rewrite matches_all by exact H. apply Qred_whole.
    destruct y_true; [done | simpl; lia].
  - rewrite matches_none by exact H. apply Qred_nothing.
Qed.

Lemma accuracy_score_all_or_nothing_witness :
  let y := [Str "Iris-setosa"; Str "Iris-virginica"; Str "Iris-setosa"] in
  let wrong := [Str "Iris-virginica"; Str "Iris-setosa"; Str "Iris-versicolor"] in
  accuracy_score y y = Ok 1%Q ∧ accuracy_score y wrong = Ok 0%Q.
Proof.
  split.
  - apply (accuracy_score_all_or_nothing true); [discriminate|].
    repeat constructor.
  - apply (accuracy_score_all_or_nothing false); [discriminate|].
    repeat constructor.
Defined.

End AccuracyFacts.

(** ** Failure in the pipeline *)

Section OrchestratorFacts.
Import Pipeline.

Context (steps : list step).
Hypothesis names_unique :
  ∀ s s', s ∈ steps → s' ∈ steps → script_name s = script_name s' → s = s'.

Lemma status_of_insert_eq st s x :
  status_of (<[script_name s := x]> st) s = x.
Proof. unfold status_of. by rewrite lookup_insert_eq. Qed.

Lemma status_of_insert_ne st s s' x :
  s ∈ steps → s' ∈ steps → s ≠ s' →
  status_of (<[script_name s := x]> st) s' = status_of st s'.
Proof.
  intros Hs Hs' Hne. unfold status_of. rewrite lookup_insert_ne; [done|].
  intros Heq. by apply Hne, names_unique.
Qed.

(** A transition changes the status of one stage, which was pending or
    running. *)
Lemma transition_inv st st' :
  transition steps st st' →
  ∃ s x, s ∈ steps ∧ st' = <[script_name s := x]> st ∧ x ≠ pending ∧
         (status_of st s = pending ∨ status_of st s = running) ∧
         (status_of st s = pending → ready steps st s).
Proof.
  destruct 1 as [st s Hs Hp Hr | st s Hs Hp _ Hr | st s Hs Hp | st s Hs Hp];
    eexists s, _; (split; [exact Hs|]); (split; [reflexivity|]);
    (split; [discriminate|]); (split; [by auto|]); try done;
    rewrite Hp; discriminate.
Qed.

(** The statuses [succeeded], [reused] and [failed] are final. *)
Lemma final_status_stable st st' p x :
  x ≠ pending → x ≠ running → p ∈ steps →
  transition steps st st' → status_of st p = x → status_of st' p = x.
Proof.
  intros Hx1 Hx2 Hp Ht Hst.
  apply transition_inv in Ht as (s & y & Hs & -> & _ & Hwas & _).
  destruct (decide (s = p)) as [->|Hne].
  - destruct Hwas; congruence.
  - by rewrite status_of_insert_ne.
Qed.

Lemma done_stable st st' p :
  p ∈ steps → transition steps st st' → done st p → done st' p.
Proof.
  intros Hp Ht [H|H]; [left | right];
    by eapply final_status_stable; [| | exact Hp | exact Ht | exact H].
Qed.

Lemma started_ready_step st st' :
  transition steps st st' → started_ready steps st → started_ready steps st'.
Proof.
  unfold started_ready, ready. intros Ht Inv s' Hs' Hstarted p Hp Hfeeds.
  eapply done_stable; [exact Hp | exact Ht |].
  apply transition_inv in Ht as (s & y & Hs & -> & _ & Hwas & Hready).
  destruct (decide (s = s')) as [->|Hne].
  - destruct Hwas as [Hpend|Hrun].
    + by apply Hready.
    + apply (Inv s'); [done | congruence | done..].
  - rewrite status_of_insert_ne in Hstarted by done. by apply (Inv s').
Qed.

Lemma reachable_started_ready st :
  reachable steps st → started_ready steps st.
Proof.
  unfold reachable. intros Hrtc.
  apply (rtc_ind_r (R := transition steps) (started_ready steps) ∅);
    [| |exact Hrtc].
  - intros s _ Hs. by unfold status_of in Hs; rewrite lookup_empty in Hs.
  - intros st1 st2 _ Ht Inv. by eapply started_ready_step.
Qed.

(** Below a stage that has not finished well everything is pending. *)
Lemma downstream_pending st f d :
  started_ready steps st → ¬ done st f → downstream steps f d →
  status_of st d = pending.
Proof.
  unfold started_ready, ready. intros Inv Hf Hdown. revert Hf.
  induction Hdown as [x y (Hx & Hy & Hxy) | x y z (Hx & Hy & Hxy) _ IH]; intros Hf.
  - destruct (decide (status_of st y = pending)) as [|Hstarted]; [done|].
    destruct Hf. by apply (Inv y).
  - apply IH. intros Hdone.
    assert (status_of st y = pending) as Hpend.
    { destruct (decide (status_of st y = pending)) as [|Hstarted]; [done|].
      destruct Hf. by apply (Inv y). }
    destruct Hdone; congruence.
Qed.

Lemma downstream_in_steps f d : downstream steps f d → f ∈ steps ∧ d ∈ steps.
Proof.
  induction 1 as [x y (Hx & Hy & _) | x y z (Hx & _ & _) _ [_ IH]]; by split.
Qed.

Lemma failure_is_final st st' f :
  f ∈ steps → rtc (transition steps) st st' →
  status_of st f = failed → status_of st' f = failed.
Proof.
  intros Hf Hrtc. induction Hrtc as [|st1 st2 st3 Ht _ IH]; [done|].
  intros H. apply IH. by eapply final_status_stable; [| | exact Hf | exact Ht | exact H].
Qed.

Lemma failure_blocks_downstream_of st st' f d :
  reachable steps st → status_of st f = failed → downstream steps f d →
  rtc (transition steps) st st' →
  status_of st' f = failed ∧ status_of st' d = pending.
Proof.
  intros Hreach Hfailed Hdown Hlater.
  destruct (downstream_in_steps _ _ Hdown) as [Hf _].
  assert (status_of st' f = failed) as Hstill by by eapply failure_is_final.
  split; [done|].
  apply (downstream_pending st' f d); [| |done].
  - apply reachable_started_ready. unfold reachable in *. by etrans.
  - intros [H|H]; congruence.
Qed.

End OrchestratorFacts.

Section PipelineFacts.
Import Pipeline.

Ltac in_list :=
  repeat (apply list_elem_of_here || apply list_elem_of_further).

Lemma pipeline_names_unique s s' :
  s ∈ pipeline → s' ∈ pipeline → script_name s = script_name s' → s = s'.
Proof.
  unfold pipeline. rewrite !elem_of_cons, !elem_of_nil.
  intros Hs Hs' Heq.
  repeat match goal with H : _ ∨ _ |- _ => destruct H as [H|H] end;
    try done; subst; try reflexivity; discriminate Heq.
Qed.

(** C9: in a Run of the five-stage pipeline, once a stage has failed it
    stays failed, and every stage downstream of it is pending then and in
    every later state of the Run: it is never started. *)
Theorem failure_blocks_downstream (st st' : gmap string status) (f d : step) :
  reachable pipeline st →
  status_of st f = failed →
  downstream pipeline f d →
  rtc (transition pipeline) st st' →
  status_of st' f = failed ∧ status_of st' d = pending.
Proof. apply failure_blocks_downstream_of, pipeline_names_unique. Qed.

Lemma in_pipeline_cases (P : step → Prop) :
  P ingestion_step → P preprocess_step → P train_step → P evaluate_step →
  P deploy_step → ∀ s, s ∈ pipeline → P s.
Proof.
  intros P1 P2 P3 P4 P5 s. unfold pipeline. rewrite !elem_of_cons, !elem_of_nil.
  intros Hs. repeat destruct Hs as [->|Hs]; done.
Qed.

Lemma feeds_intro (d : string) (p s : step) :
  d ∈ outputs p → d ∈ inputs s → feeds p s.
Proof. intros ??. by exists d. Qed.

Lemma failure_blocks_downstream_witness :
  let st : gmap string status :=
    <["ingest.py" := failed]> (<["ingest.py" := running]> ∅) in
  reachable pipeline st ∧
  status_of st ingestion_step = failed ∧
  downstream pipeline ingestion_step deploy_step ∧
  status_of st ingestion_step = failed ∧
  status_of st deploy_step = pending.
Proof.
  intros st.
  assert (ingestion_step ∈ pipeline) as Hin by (unfold pipeline; in_list).
  assert (reachable pipeline st) as Hreach.
  { unfold reachable, st. eapply rtc_l; [|eapply rtc_l; [|apply rtc_refl]].
    - apply (t_start pipeline ∅ ingestion_step); [exact Hin | reflexivity |].
      unfold ready.
      apply (in_pipeline_cases (λ p, feeds p ingestion_step → done ∅ p));
        intros Hfeeds; exfalso;
        revert Hfeeds; apply (bool_decide_eq_false_1 _); reflexivity.
    - apply (t_fail pipeline _ ingestion_step); [exact Hin | reflexivity]. }
  assert (downstream pipeline ingestion_step deploy_step) as Hdown.
  { unfold downstream.
    eapply (tc_l _ _ preprocess_step);
      [|eapply (tc_l _ _ train_step);
        [|eapply (tc_l _ _ evaluate_step); [|apply tc_once]]];
      (split; [unfold pipeline; in_list|]);
      (split; [unfold pipeline; in_list|]).
    - apply (feeds_intro iris_data_dir); in_list.
    - apply (feeds_intro train_dir); in_list.
    - apply (feeds_intro model_dir); in_list.
    - apply (feeds_intro accuracy_dir); in_list. }
  split; [exact Hreach|]. split; [reflexivity|]. split; [exact Hdown|].
  apply (failure_blocks_downstream st st ingestion_step deploy_step);
    [exact Hreach | reflexivity | exact Hdown | apply rtc_refl].
Defined.

End PipelineFacts.

(** ** Running scripts symbolically *)

(** Unfolds the monad and the state updates, leaving the map operations
    folded; to be used on a world given by its fields. *)
Ltac script_unfold :=
  cbv beta iota delta
    [Py.fresh_module Py.import_ Py.def_ Py.assign Py.modify Py.gets Py.lift
     Py.raise Py.print Py.global_ Py.try_except Py.is_WebserviceException
     Py.os_path_exists Py.os_makedirs Py.open_r Py.open_w
     Py.pickle_load
     mbind Py.M_bind mret Py.M_ret Py.result_bind Py.result_ret
     Py.set_namespace Py.set_files Py.set_dirs Py.set_registry
     Py.set_environments Py.set_services Py.log
     Py.namespace Py.files Py.dirs Py.environ Py.registry Py.environments
     Py.services Py.calls fst snd negb orb andb].

(** ** evaluate.py stops before it writes the accuracy *)

Section EvaluateFacts.
Import Py Lib Evaluate Examples.

(** Whenever the model and the test split load, the prediction succeeds
    and the accuracy is computed, the script raises [NameError] at
    [os.path.exists]: the name [os] is never imported.  Nothing has been
    written by then. *)
Lemma evaluate_py_stops_at_os (a : args) (w : World)
    (m : classifier) (X : list (list value)) (y preds : list value) (acc : Q) :
  files w !! (model_dir a, "model.pt") = Some (Pickle (PModel m)) →
  files w !! (test_dir a, "X_test.sav") = Some (Pickle (PMatrix X)) →
  files w !! (test_dir a, "Y_test.sav") = Some (Pickle (PVector y)) →
  predict m X = Ok preds →
  accuracy_score y preds = Ok acc →
  ∃ w', evaluate_py a w = (Raise (NameError "os"), w') ∧
        files w' = files w ∧ dirs w' = dirs w.
Proof.
  destruct w as [fs ds env ns reg envs svc cs]. simpl.
  intros Hm HX Hy Hp Hacc.
  unfold evaluate_py, call_predict, call_accuracy_score, ensure_dir.
  script_unfold. simplify_map_eq.
  rewrite Hp. script_unfold. rewrite Hacc. script_unfold. simplify_map_eq.
  eexists. split; [reflexivity|]. by split.
Qed.

(** C3 fails on the code: with the model and both test files in place and
    a prediction that succeeds (and is right), evaluate.py ends in
    [NameError: name 'os' is not defined] and there is no
    [accuracy_file] afterwards. *)
Theorem evaluate_py_raises_NameError :
  let a := {| model_dir := "model"; test_dir := "test"; accuracy_dir := "accuracy" |} in
  predict always_setosa [sample] = Ok [Str "Iris-setosa"] ∧
  accuracy_score [Str "Iris-setosa"] [Str "Iris-setosa"] = Ok 1%Q ∧
  (evaluate_py a evaluate_inputs).1 = Raise (NameError "os") ∧
  files (evaluate_py a evaluate_inputs).2 !! ("accuracy", "accuracy_file") = None.
Proof.
  intros a.
  assert (predict always_setosa [sample] = Ok [Str "Iris-setosa"]) as Hp
    by reflexivity.
  assert (accuracy_score [Str "Iris-setosa"] [Str "Iris-setosa"] = Ok 1%Q) as Hacc
    by reflexivity.
  destruct (evaluate_py_stops_at_os a evaluate_inputs always_setosa [sample]
              [Str "Iris-setosa"] [Str "Iris-setosa"] 1%Q)
    as (w' & -> & Hfiles & _); try done.
  repeat split; try done. simpl. by rewrite Hfiles.
Qed.

End EvaluateFacts.

(** ** deploy.py: the registration gate *)

(** Looks up a name in a namespace that is given by its bindings. *)
Ltac bound_names m :=
  lazymatch m with
  | ∅ => idtac
  | insert _ _ ?m' => bound_names m'
  end.

Ltac ns_lookup :=
  repeat match goal with
  | |- context [@lookup string Py.pyobj _ _ ?k ?m] =>
      bound_names m;
      let r := eval vm_compute in (m !! k) in
      change (m !! k) with r
  end.

Ltac script_run := repeat (progress (script_unfold; ns_lookup)).

Section RunLemmas.
Import Py.

Lemma elem_of_ensured (d : string) (ds : gset string) : d ∈ ensured d ds.
Proof. unfold ensured. case_bool_decide; set_solver. Qed.

Lemma ensured_mono (d d' : string) (ds : gset string) :
  d ∈ ds → d ∈ ensured d' ds.
Proof. unfold ensured. case_bool_decide; set_solver. Qed.

Lemma run_bind {A B} (m : M A) (k : A → M B) (w : World) :
  (m ≫= k) w = match m w with
               | (Ok a, w') => k a w'
               | (Raise e, w') => (Raise e, w')
               end.
Proof. reflexivity. Qed.

Lemma ensure_dir_run (d : string) (w : World) (o : pyobj) :
  namespace w !! "os" = Some o →
  ensure_dir d w = (Ok (), set_dirs (ensured d) w).
Proof.
  destruct w as [fs ds env ns reg envs svc cs]. simpl. intros Hos.
  unfold ensure_dir, ensured. script_unfold. rewrite Hos. script_unfold.
  case_bool_decide; [reflexivity|]. script_unfold. by rewrite Hos.
Qed.

Lemma write_text_run (s dir base : string) (w : World) :
  dir ∈ dirs w →
  write_text s dir base w = (Ok (), set_files <[(dir, base) := Text s]> w).
Proof.
  destruct w as [fs ds env ns reg envs svc cs]. simpl. intros Hdir.
  unfold write_text. script_unfold. rewrite bool_decide_eq_true_2 by exact Hdir.
  script_unfold. by rewrite insert_insert_eq.
Qed.

Lemma pickle_dump_run (o : pyobj) (dir base : string) (w : World) (p : pyobj) :
  namespace w !! "pickle" = Some p →
  dir ∈ dirs w →
  pickle_dump o dir base w = (Ok (), set_files <[(dir, base) := Pickle o]> w).
Proof.
  destruct w as [fs ds env ns reg envs svc cs]. simpl. intros Hp Hdir.
  unfold pickle_dump. script_unfold. rewrite bool_decide_eq_true_2 by exact Hdir.
  script_unfold. rewrite Hp. script_unfold. by rewrite insert_insert_eq.
Qed.

End RunLemmas.

Section DeployFacts.
Import Py Lib Deploy.

Context (scoring_uri : webservice → string).

Lemma register_model_run output_dir name accuracy test_dir w o md :
  namespace w !! "Model" = Some o →
  namespace w !! "model_dir" = Some (PStr md) →
  register_model output_dir name accuracy test_dir w =
  (Ok (new_model md accuracy test_dir), register (new_model md accuracy test_dir) w).
Proof.
  destruct w as [fs ds env ns reg envs svc cs]. simpl. intros HM Hmd.
  unfold register_model, Model_register, py_add. script_unfold.
  rewrite HM. script_unfold. rewrite Hmd. reflexivity.
Qed.

(** No model under the name: the lookup raises, the handler registers. *)
Lemma gate_run_new md' accuracy test_dir w o md :
  namespace w !! "Model" = Some o →
  namespace w !! "model_dir" = Some (PStr md) →
  registry w !! model_name = None →
  gate md' accuracy test_dir w =
  (Ok (new_model md accuracy test_dir, true),
   register (new_model md accuracy test_dir) w).
Proof.
  destruct w as [fs ds env ns reg envs svc cs]. simpl. intros HM Hmd Hreg.
  unfold gate, Model_get. script_unfold. rewrite HM. script_unfold.
  rewrite Hreg. script_unfold.
  erewrite register_model_run by (simpl; eassumption). reflexivity.
Qed.

(** A model under the name, tagged as [register_model] tags: the test of
    the script, [prev_test_dir != test_dir or prev_accuracy >= accuracy]. *)
Lemma gate_run_registered md' (acc : Q) test_dir w o md m p d :
  namespace w !! "Model" = Some o →
  namespace w !! "model_dir" = Some (PStr md) →
  registry w !! model_name = Some m →
  tags m !! "accuracy" = Some (PFloat p) →
  tags m !! "test_data" = Some (PStr d) →
  gate md' (PFloat acc) test_dir w =
  if negb (String.eqb d test_dir) || Qle_bool acc p then
    (Ok (new_model md (PFloat acc) test_dir, true),
     register (new_model md (PFloat acc) test_dir) w)
  else (Ok (m, false), w).
Proof.
  destruct w as [fs ds env ns reg envs svc cs]. simpl. intros HM Hmd Hreg Hp Hd.
  unfold gate, Model_get, getitem, py_ne, py_ge. script_unfold.
  rewrite HM. script_unfold. rewrite Hreg. script_unfold.
  rewrite Hp, Hd. script_unfold.
  destruct (String.eqb d test_dir); script_unfold.
  - destruct (Qle_bool acc p); script_unfold; [|reflexivity].
    erewrite register_model_run by (simpl; eassumption). reflexivity.
  - erewrite register_model_run by (simpl; eassumption). reflexivity.
Qed.

Lemma publish_run_new m w o1 o2 o3 o4 :
  namespace w !! "Model" = Some o1 →
  namespace w !! "Webservice" = Some o2 →
  namespace w !! "InferenceConfig" = Some o3 →
  namespace w !! "AciWebservice" = Some o4 →
  publish m true w = (Ok (new_service m), replace_service (new_service m) w).
Proof.
  destruct w as [fs ds env ns reg envs svc cs]. simpl. intros H1 H2 H3 H4.
  unfold publish, Webservice_get, Webservice_delete, Model_deploy,
    replace_service, service_name.
  script_unfold. rewrite H3. script_unfold. rewrite H4. script_unfold.
  rewrite H2. script_unfold.
  destruct (svc !! "iris-classification-service") as [old|] eqn:Hsvc;
    script_unfold; rewrite H1; script_unfold.
  - rewrite lookup_delete_eq. reflexivity.
  - rewrite Hsvc. reflexivity.
Qed.

Lemma publish_run_old m w o :
  namespace w !! "Webservice" = Some o →
  publish m false w =
  match services w !! service_name with
  | Some s => (Ok s, w)
  | None => (Raise WebserviceException, w)
  end.
Proof.
  destruct w as [fs ds env ns reg envs svc cs]. simpl. intros H.
  unfold publish, Webservice_get. script_unfold. rewrite H. script_unfold.
  by destruct (svc !! service_name).
Qed.

(** The script up to the gate. *)
Lemma deploy_py_prelude (a : args) (w : World) :
  deploy_py scoring_uri a w =
  match files w !! (accuracy_dir a, "accuracy_file") with
  | Some (Pickle accuracy) =>
      ('(model, new_model) ← gate (model_dir a) accuracy (test_dir a);
       service ← publish model new_model;
       print;;
       write_text (scoring_uri service) (model_dir a) "scoring_uri.txt")
        (prepared a w)
  | Some (Text _) => (Raise UnpicklingError, prepared a w)
  | None =>
      (Raise (FileNotFoundError (accuracy_dir a) "accuracy_file"), prepared a w)
  end.
Proof.
  destruct w as [fs ds env ns reg envs svc cs]. simpl.
  unfold deploy_py, Environment_register. script_run.
  erewrite ensure_dir_run by (simpl; ns_lookup; reflexivity).
  script_run.
  destruct (fs !! (accuracy_dir a, "accuracy_file")) as [[t|accuracy]|];
    script_run; reflexivity.
Qed.

Lemma prepared_names (a : args) (w : World) :
  namespace (prepared a w) !! "Model" = Some (PNamed "Model") ∧
  namespace (prepared a w) !! "model_dir" = Some (PStr (model_dir a)) ∧
  namespace (prepared a w) !! "Webservice" = Some (PNamed "Webservice") ∧
  namespace (prepared a w) !! "InferenceConfig" = Some (PNamed "InferenceConfig") ∧
  namespace (prepared a w) !! "AciWebservice" = Some (PNamed "AciWebservice").
Proof. simpl. unfold deploy_namespace. ns_lookup. done. Qed.

(** The run when the gate registers: the new model is registered, the
    endpoint replaced, the address written. *)
Lemma deploy_py_registering (a : args) (w : World) (accuracy : pyobj) :
  files w !! (accuracy_dir a, "accuracy_file") = Some (Pickle accuracy) →
  let nm := new_model (model_dir a) accuracy (test_dir a) in
  gate (model_dir a) accuracy (test_dir a) (prepared a w) =
    (Ok (nm, true), register nm (prepared a w)) →
  deploy_py scoring_uri a w =
  (Ok (),
   set_files <[(model_dir a, "scoring_uri.txt") := Text (scoring_uri (new_service nm))]>
     (replace_service (new_service nm) (register nm (prepared a w)))).
Proof.
  intros Hacc nm Hgate. rewrite (deploy_py_prelude a w), Hacc.
  destruct (prepared_names a w) as (H1 & H2 & H3 & H4 & H5).
  change (?m ≫= ?k) with (M_bind _ _ k m) at 1. unfold M_bind at 1.
  rewrite Hgate.
  change (?m ≫= ?k) with (M_bind _ _ k m) at 1. unfold M_bind at 1.
  erewrite publish_run_new by (simpl; eassumption).
  change (print;; ?k) with k.
  apply write_text_run. simpl.
  destruct (services w !! service_name); simpl; apply elem_of_ensured.
Qed.

(** The run when the gate keeps the registered model: no workspace call
    is made. *)
Lemma deploy_py_keeping (a : args) (w : World) (accuracy : pyobj)
    (m : registered_model) :
  files w !! (accuracy_dir a, "accuracy_file") = Some (Pickle accuracy) →
  gate (model_dir a) accuracy (test_dir a) (prepared a w) =
    (Ok (m, false), prepared a w) →
  ∃ r w', deploy_py scoring_uri a w = (r, w') ∧
          registry w' = registry w ∧ services w' = services w ∧
          calls w' = calls w.
Proof.
  intros Hacc Hgate. rewrite (deploy_py_prelude a w), Hacc.
  destruct (prepared_names a w) as (H1 & H2 & H3 & H4 & H5).
  change (?m ≫= ?k) with (M_bind _ _ k m) at 1. unfold M_bind at 1.
  rewrite Hgate.
  change (?m ≫= ?k) with (M_bind _ _ k m) at 1. unfold M_bind at 1.
  erewrite publish_run_old by (simpl; eassumption).
  change (services (prepared a w)) with (services w).
  destruct (services w !! service_name) as [s|]; [|by eexists _, _].
  change (print;; ?k) with k.
  rewrite write_text_run by (simpl; apply elem_of_ensured). by eexists _, _.
Qed.

Lemma performed_app (l : list event) (w w' : World) :
  calls w' = (l ++ calls w)%list → performed w w' = l.
Proof.
  intros E. unfold performed. rewrite E, length_app.
  replace (length l + length (calls w) - length (calls w)) with (length l) by lia.
  by rewrite take_app_length.
Qed.

(** The test of the script says what [registration_due] says. *)
Lemma registration_due_test (p acc : Q) (d test_dir : string) :
  registration_due (Some (p, d)) acc test_dir ↔
  negb (String.eqb d test_dir) || Qle_bool acc p = true.
Proof.
  simpl. rewrite orb_true_iff, negb_true_iff, Qle_bool_iff.
  destruct (String.eqb_spec d test_dir) as [->|Hne].
  - split; intros [H|H]; try done; right.
    + by apply Qnot_lt_le.
    + by apply Qle_not_lt.
  - split; intros _; by left.
Qed.

Lemma deploy_py_gate (a : args) (w : World) (acc : Q) (previous : option (Q * string)) :
  files w !! (accuracy_dir a, "accuracy_file") = Some (Pickle (PFloat acc)) →
  stored w previous →
  let w' := (deploy_py scoring_uri a w).2 in
  let nm := new_model (model_dir a) (PFloat acc) (test_dir a) in
  (registration_due previous acc (test_dir a) →
     performed w w' = registering_calls w nm ∧
     registry w' !! model_name = Some nm ∧
     services w' !! service_name = Some (new_service nm)) ∧
  (¬ registration_due previous acc (test_dir a) →
     performed w w' = [] ∧ registry w' = registry w ∧ services w' = services w).
Proof.
  intros Hacc Hstored w' nm.
  destruct (prepared_names a w) as (H1 & H2 & _).
  assert (gate (model_dir a) (PFloat acc) (test_dir a) (prepared a w) =
            (Ok (nm, true), register nm (prepared a w)) →
          performed w w' = registering_calls w nm ∧
          registry w' !! model_name = Some nm ∧
          services w' !! service_name = Some (new_service nm)) as Hregistering.
  { intros Hgate. subst w'.
    rewrite (deploy_py_registering a w (PFloat acc) Hacc Hgate).
    unfold registering_calls.
    split; [|split].
    - apply performed_app. simpl.
      by destruct (services w !! service_name).
    - simpl. destruct (services w !! service_name); simpl;
        apply lookup_insert_eq.
    - simpl. apply lookup_insert_eq. }
  destruct previous as [[p d]|]; simpl in Hstored.
  - destruct Hstored as (m & Hm & Hp & Hd).
    pose proof (gate_run_registered (model_dir a) acc (test_dir a)
                  (prepared a w) _ _ m p d H1 H2 Hm Hp Hd) as Hgate.
    pose proof (registration_due_test p acc d (test_dir a)) as Hdue.
    destruct (negb (String.eqb d (test_dir a)) || Qle_bool acc p).
    + split; [intros _; by apply Hregistering|].
      intros Hnot. destruct Hnot. by apply Hdue.
    + split; [intros Hyes; apply Hdue in Hyes; discriminate|].
      intros _.
      destruct (deploy_py_keeping a w (PFloat acc) m Hacc Hgate)
        as (r & w'' & Hrun & Hreg & Hsvc & Hcalls).
      subst w'. rewrite Hrun. simpl. split; [|by split].
      by apply (performed_app []).
  - split; [|intros Hnot; by destruct Hnot].
    intros _. apply Hregistering.
    by apply (gate_run_new _ _ _ _ _ _ H1 H2).
Qed.

(** Whatever the registry holds, the gate either registers the model
    [register_model] builds or changes nothing. *)
Lemma gate_outcomes md' accuracy test_dir w o md :
  namespace w !! "Model" = Some o →
  namespace w !! "model_dir" = Some (PStr md) →
  let nm := new_model md accuracy test_dir in
  gate md' accuracy test_dir w = (Ok (nm, true), register nm w) ∨
  (∃ m, gate md' accuracy test_dir w = (Ok (m, false), w)) ∨
  (∃ e, gate md' accuracy test_dir w = (Raise e, w)).
Proof.
  intros HM Hmd nm.
  destruct (registry w !! model_name) as [m|] eqn:Hreg;
    [|left; by eapply gate_run_new].
  pose proof (register_model_run md' model_name accuracy test_dir w o md HM Hmd)
    as Hregister.
  destruct w as [fs ds env ns reg envs svc cs]. simpl in *.
  unfold gate, Model_get, getitem. script_unfold.
  rewrite HM. script_unfold. rewrite Hreg. script_unfold.
  destruct (tags m !! "accuracy") as [pa|]; script_unfold;
    [|right; right; by eexists].
  destruct (tags m !! "test_data") as [pt|]; script_unfold;
    [|right; right; by eexists].
  destruct (py_ne pt (PStr test_dir)); script_unfold.
  { rewrite Hregister. by left. }
  unfold py_ge.
  destruct pa, accuracy; script_unfold;
    try (right; right; by eexists);
    match goal with
    | |- context [if ?b then _ else _] => destruct b
    end; script_unfold; try rewrite Hregister;
    first [by left | right; left; by eexists].
Qed.

(** The calls of a run of the stage: those of a registration of the model
    [register_model] builds from the [model_dir] argument, or none. *)
Lemma deploy_py_calls (a : args) (w : World) :
  ∃ accuracy r w' l,
    deploy_py scoring_uri a w = (r, w') ∧
    calls w' = (l ++ calls w)%list ∧
    (l = registering_calls w (new_model (model_dir a) accuracy (test_dir a)) ∨
     l = []).
Proof.
  rewrite (deploy_py_prelude a w).
  destruct (files w !! (accuracy_dir a, "accuracy_file")) as [[t|accuracy]|];
    [ exists PNone; eexists _, _, []; by auto
    | | exists PNone; eexists _, _, []; by auto ].
  exists accuracy.
  destruct (prepared_names a w) as (H1 & H2 & H3 & H4 & H5).
  change (?m ≫= ?k) with (M_bind _ _ k m) at 1. unfold M_bind at 1.
  destruct (gate_outcomes (model_dir a) accuracy (test_dir a) (prepared a w) _ _ H1 H2)
    as [Hgate|[[m Hgate]|[e Hgate]]]; rewrite Hgate.
  - change (?m ≫= ?k) with (M_bind _ _ k m) at 1. unfold M_bind at 1.
    erewrite publish_run_new by (simpl; eassumption).
    change (print;; ?k) with k.
    rewrite write_text_run
      by (simpl; destruct (services w !! service_name); simpl; apply elem_of_ensured).
    eexists _, _, _. split; [reflexivity|]. split; [|by left].
    simpl. unfold registering_calls. by destruct (services w !! service_name).
  - change (?m ≫= ?k) with (M_bind _ _ k m) at 1. unfold M_bind at 1.
    erewrite publish_run_old by (simpl; eassumption).
    change (services (prepared a w)) with (services w).
    destruct (services w !! service_name) as [s|];
      [|eexists _, _, []; by auto].
    change (print;; ?k) with k.
    rewrite write_text_run by (simpl; apply elem_of_ensured).
    eexists _, _, []; by auto.
  - eexists _, _, []; by auto.
Qed.

(** C10: [register_model] does the same whatever [output_dir] and
    [model_name] it is given, and every model a run of the Deploy stage
    registers has the name 'iris-classification-pipeline' and the artifact
    path [model_dir + '/model.pt']. *)
Theorem register_model_ignores_its_parameters
    (output_dir output_dir' name name' : string) (accuracy : pyobj)
    (test_dir : string) (a : args) (w : World) :
  register_model output_dir name accuracy test_dir =
    register_model output_dir' name' accuracy test_dir ∧
  Forall (λ m, Py.model_name m = "iris-classification-pipeline" ∧
               model_path m = model_dir a ++ "/model.pt")
         (registrations (performed w (deploy_py scoring_uri a w).2)).
Proof.
  split; [reflexivity|].
  destruct (deploy_py_calls a w) as (acc & r & w' & l & -> & Hcalls & Hl).
  rewrite (performed_app l) by exact Hcalls.
  destruct Hl as [-> | ->]; [|constructor].
  unfold registering_calls.
  destruct (services w !! service_name); repeat constructor.
Qed.

End DeployFacts.

Section DeployExamples.
Import Py Lib Deploy Examples.

Lemma deploy_inputs_stored (accuracy : Q) :
  stored (deploy_inputs accuracy) (Some (0.90%Q, "A")).
Proof. exists registered_before. by repeat split. Qed.

(** C1 fails on the code: with {accuracy 0.90, test_data "A"} registered,
    a run that computed the lower accuracy 0.85 on the same test set
    registers its model and replaces the endpoint, and a run that computed
    the higher accuracy 0.95 registers nothing and leaves the endpoint. *)
Theorem deploy_gate_prefers_lower_accuracy :
  let lower := (deploy_py uri deploy_args (deploy_inputs 0.85)).2 in
  let higher := (deploy_py uri deploy_args (deploy_inputs 0.95)).2 in
  performed (deploy_inputs 0.85) lower =
    [Deployed service_name (new_service (registered_now 0.85));
     Deleted service_name;
     Registered (registered_now 0.85)] ∧
  services lower !! service_name = Some (new_service (registered_now 0.85)) ∧
  performed (deploy_inputs 0.95) higher = [] ∧
  registry higher = registry (deploy_inputs 0.95) ∧
  services higher = services (deploy_inputs 0.95).
Proof.
  intros lower higher.
  destruct (deploy_py_gate uri deploy_args (deploy_inputs 0.85) 0.85
              (Some (0.90%Q, "A")) eq_refl (deploy_inputs_stored _))
    as [Hlower _].
  destruct (deploy_py_gate uri deploy_args (deploy_inputs 0.95) 0.95
              (Some (0.90%Q, "A")) eq_refl (deploy_inputs_stored _))
    as [_ Hhigher].
  destruct Hlower as (H1 & _ & H2).
  { right. unfold Qlt. simpl. lia. }
  destruct Hhigher as (H3 & H4 & H5).
  { intros [Hne|Hlt]; [exact (Hne eq_refl)|]. apply Hlt. unfold Qlt. simpl. lia. }
  exact (conj H1 (conj H2 (conj H3 (conj H4 H5)))).
Qed.

End DeployExamples.

(** ** score.py *)

Section ScoreFacts.
Import Py Lib Score.

Context (json_loads : string → option json).

Lemma mapM_scalar_numbers (xs : list Q) :
  mapM scalar (JNumber <$> xs) = Some (Num <$> xs).
Proof.
  induction xs as [|x xs IH]; [reflexivity|].
  change (mapM scalar (JNumber <$> x :: xs))
    with (k ← mapM scalar (JNumber <$> xs); Some (Num x :: k)).
  by rewrite IH.
Qed.

Lemma mapM_as_number (xs : list Q) : mapM as_number (Num <$> xs) = Some xs.
Proof.
  induction xs as [|x xs IH]; [reflexivity|].
  change (mapM as_number (Num <$> x :: xs))
    with (k ← mapM as_number (Num <$> xs); Some (x :: k)).
  by rewrite IH.
Qed.

Lemma predict_one (m : classifier) (xs : list Q) :
  length xs = n_features m → predict m [Num <$> xs] = Ok [decision m xs].
Proof.
  intros Hlen. unfold predict, feature_vector. simpl.
  rewrite length_fmap, bool_decide_eq_true_2 by exact Hlen.
  by rewrite mapM_as_number.
Qed.

(** After the module body and [init()] the names [np] and [json] are bound
    (and [model] is what the model file held). *)
Lemma started_names (w0 w : World) :
  (score_py;; init) w0 = (Ok (), w) →
  namespace w !! "np" = Some (PNamed "np") ∧
  namespace w !! "json" = Some (PNamed "json").
Proof.
  destruct w0 as [fs ds env ns reg envs svc cs].
  unfold score_py, init, os_getenv. script_run.
  destruct (env !! "AZUREML_MODEL_DIR") as [d|]; script_run; [|discriminate].
  destruct (fs !! (d, "model.pt")) as [[t|o]|]; script_run; try discriminate.
  intros [= <-]. simpl. ns_lookup. done.
Qed.

(** A request on a started service, by what the parser makes of it. *)
Lemma run_malformed (raw : string) (w : World) (o1 o2 : pyobj) :
  namespace w !! "np" = Some o1 →
  namespace w !! "json" = Some o2 →
  json_loads raw = None →
  run json_loads raw w = (Raise JSONDecodeError, w).
Proof.
  destruct w as [fs ds env ns reg envs svc cs]. simpl. intros H1 H2 Hbad.
  unfold run. script_unfold. rewrite H1. script_unfold. rewrite H2.
  script_unfold. by rewrite Hbad.
Qed.

Lemma run_well_formed (raw : string) (w : World) (o1 o2 : pyobj)
    (m : classifier) (doc : json) (xs : list Q) :
  namespace w !! "np" = Some o1 →
  namespace w !! "json" = Some o2 →
  namespace w !! "model" = Some (PModel m) →
  json_loads raw = Some doc →
  subscript doc "data" = Ok (JArray (JNumber <$> xs)) →
  length xs = n_features m →
  run json_loads raw w = (Ok [decision m xs], w).
Proof.
  destruct w as [fs ds env ns reg envs svc cs]. simpl.
  intros H1 H2 Hm Hdoc Hdata Hlen.
  unfold run. script_unfold. rewrite H1. script_unfold. rewrite H2.
  script_unfold. rewrite Hdoc. script_unfold. rewrite Hdata. script_unfold.
  rewrite Hm. cbv zeta. unfold np_array. script_unfold.
  rewrite mapM_scalar_numbers. script_unfold. by rewrite predict_one.
Qed.

(** C8: on a service started with model [m], a request whose body parses
    to a JSON object with a 'data' vector of as many numbers as [m] has
    features is answered with one label, the one [m] predicts; a body that
    is not JSON ends in [JSONDecodeError], leaves the state of the service
    as it was, and the requests after it are answered as if it had not been
    made. *)
Theorem run_answers_and_survives_malformed (w0 w : World) (m : classifier)
    (raw bad : string) (doc : json) (xs : list Q) :
  (score_py;; init) w0 = (Ok (), w) →
  namespace w !! "model" = Some (PModel m) →
  json_loads raw = Some doc →
  subscript doc "data" = Ok (JArray (JNumber <$> xs)) →
  length xs = n_features m →
  json_loads bad = None →
  run json_loads raw w = (Ok [decision m xs], w) ∧
  run json_loads bad w = (Raise JSONDecodeError, w) ∧
  (∀ later, serve json_loads (bad :: later) w =
            (Raise JSONDecodeError :: (serve json_loads later w).1,
             (serve json_loads later w).2)) ∧
  serve json_loads [bad; raw] w =
    ([Raise JSONDecodeError; Ok [decision m xs]], w).
Proof.
  intros Hstart Hm Hdoc Hdata Hlen Hbad.
  destruct (started_names w0 w Hstart) as [Hnp Hjson].
  pose proof (run_well_formed raw w _ _ m doc xs Hnp Hjson Hm Hdoc Hdata Hlen)
    as Hgood.
  pose proof (run_malformed bad w _ _ Hnp Hjson Hbad) as Hrefused.
  split; [exact Hgood|]. split; [exact Hrefused|]. split.
  - intros later. simpl. rewrite Hrefused.
    by destruct (serve json_loads later w).
  - simpl. by rewrite Hrefused, Hgood.
Qed.

End ScoreFacts.

Section ScoreExamples.
Import Py Lib Score Examples.

Lemma run_answers_and_survives_malformed_witness :
  let w := ((score_py;; init) score_inputs).2 in
  let doc := JObject [("data", JArray (JNumber <$> measurements))] in
  (score_py;; init) score_inputs = (Ok (), w) ∧
  namespace w !! "model" = Some (PModel always_setosa) ∧
  only_request request_body = Some doc ∧
  subscript doc "data" = Ok (JArray (JNumber <$> measurements)) ∧
  length measurements = n_features always_setosa ∧
  only_request "{" = None ∧
  run only_request request_body w = (Ok [Str "Iris-setosa"], w) ∧
  run only_request "{" w = (Raise JSONDecodeError, w) ∧
  serve only_request ["{"; request_body] w =
    ([Raise JSONDecodeError; Ok [Str "Iris-setosa"]], w).
Proof.
  intros w doc.
  assert ((score_py;; init) score_inputs = (Ok (), w)) as Hstart
    by (vm_compute; reflexivity).
  assert (namespace w !! "model" = Some (PModel always_setosa)) as Hm
    by (vm_compute; reflexivity).
  assert (only_request request_body = Some doc) as Hdoc by reflexivity.
  assert (only_request "{" = None) as Hbad by reflexivity.
  destruct (run_answers_and_survives_malformed only_request score_inputs w
              always_setosa request_body "{" doc measurements
              Hstart Hm Hdoc eq_refl eq_refl Hbad)
    as (Hgood & Hrefused & _ & Hboth).
  exact (conj Hstart (conj Hm (conj Hdoc (conj eq_refl (conj eq_refl
          (conj Hbad (conj Hgood (conj Hrefused Hboth)))))))).
Defined.

End ScoreExamples.

(** ** [glob]: the directory part and the order *)

Section GlobFacts.
Import Py Lib.

Lemma dir_match_literal (dir d : string) :
  has_magic dir = false → dir_match dir d ↔ d = dir.
Proof.
  intros Hplain. unfold dir_match. rewrite Hplain.
  destruct (String.eqb_spec dir d) as [->|Hne]; simpl; [done|].
  split; [done|]. intros ->. by destruct Hne.
Qed.

(** A directory name without wildcards stands for itself: [glob] lists the
    entries of that directory that match the pattern. *)
Lemma listing_literal (dir pattern : string) (w : World) :
  has_magic dir = false →
  listing dir pattern w =
  filter (λ kv, kv.1.1 = dir ∧ glob_match pattern kv.1.2) (files w).
Proof.
  intros Hplain. unfold listing. apply map_filter_ext.
  intros [d base] f _. simpl. by rewrite (dir_match_literal dir d Hplain).
Qed.

Lemma listing_lookup (dir pattern : string) (w : World) (k : string * string)
    (f : file) :
  listing dir pattern w !! k = Some f → files w !! k = Some f.
Proof. unfold listing. by intros [? _]%map_lookup_filter_Some. Qed.

Lemma scandir_order_Permutation (rank : string * string → nat)
    (m : gmap (string * string) file) :
  scandir_order rank m ≡ₚ map_to_list m.
Proof. apply merge_sort_Permutation. Qed.

Lemma elem_of_scandir_order (rank : string * string → nat)
    (m : gmap (string * string) file) (k : string * string) (f : file) :
  (k, f) ∈ scandir_order rank m ↔ m !! k = Some f.
Proof. by rewrite scandir_order_Permutation, elem_of_map_to_list. Qed.

Lemma scandir_order_singleton (rank : string * string → nat)
    (k : string * string) (f : file) :
  scandir_order rank {[ k := f ]} = [(k, f)].
Proof. unfold scandir_order. by rewrite map_to_list_singleton. Qed.

End GlobFacts.

(** ** preprocess.py *)

Section PreprocessFacts.
Import Py Lib Preprocess.

Context (read_csv : file → result (list row)).
Context {RandomState : Type}.
Context (seeded : Z → RandomState).
Context (permutation : RandomState → nat → list nat).

Lemma pd_read_csv_run (k : string * string) (f : file) (w : World) (o : pyobj) :
  namespace w !! "pd" = Some o →
  files w !! k = Some f →
  pd_read_csv read_csv k w = (read_csv f, w).
Proof.
  destruct w as [fs ds env ns reg envs svc cs], k as [d b]. simpl.
  intros Hpd Hf. unfold pd_read_csv. script_unfold. rewrite Hpd. script_unfold.
  rewrite Hf. script_unfold. by destruct (read_csv f).
Qed.

(** Reading the listed files one after the other, in a world that holds
    them: the frames, or the first exception. *)
Lemma mapM_pd_read_csv (kvs : list (string * string * file)) (w : World) (o : pyobj) :
  namespace w !! "pd" = Some o →
  (∀ k f, (k, f) ∈ kvs → files w !! k = Some f) →
  mapM (pd_read_csv read_csv) kvs.*1 w = (mapM read_csv kvs.*2, w).
Proof.
  intros Hpd.
  induction kvs as [|[k f] kvs IH]; intros Hfiles; [reflexivity|].
  rewrite !fmap_cons. simpl fst. simpl snd.
  change (mapM ?g (k :: ?l)) with (y ← g k; r ← mapM g l; mret (y :: r)).
  change (mapM ?g (f :: ?l)) with (y ← g f; r ← mapM g l; mret (y :: r)).
  rewrite run_bind, (pd_read_csv_run k f w o Hpd)
    by (apply Hfiles, list_elem_of_here).
  destruct (read_csv f) as [frame|e]; [|reflexivity].
  rewrite run_bind, IH
    by (intros; apply Hfiles; by apply list_elem_of_further).
  change (mbind ?k (Ok frame)) with (k frame).
  by destruct (mapM read_csv kvs.*2).
Qed.

(** The script is its partition of the input files, written out. *)
Lemma preprocess_py_run (rank : string * string → nat) (rng : RandomState)
    (a : args) (w : World) :
  preprocess_py read_csv rank seeded permutation rng a w =
  match partition read_csv seeded permutation rng (input_files rank a w) with
  | Ok parts => (Ok (), written a parts (started w))
  | Raise e => (Raise e, started w)
  end.
Proof.
  destruct w as [fs ds env ns reg envs svc cs].
  unfold preprocess_py, glob_glob. script_run.
  erewrite mapM_pd_read_csv; cycle 1.
  { simpl. ns_lookup. reflexivity. }
  { intros k f Hin. simpl.
    apply elem_of_scandir_order in Hin. by apply listing_lookup in Hin. }
  unfold partition, input_files, started, preprocess_namespace.
  script_unfold.
  destruct (mapM read_csv _) as [frames|e]; script_unfold; [|reflexivity].
  destruct (pd_concat frames) as [dataset|e]; script_unfold; [|reflexivity].
  script_run.
  destruct (train_test_split _ _ _ _ _ _ _) as [[[[X_train X_test] Y_train] Y_test]|e];
    [|reflexivity].
  script_unfold.
  erewrite ensure_dir_run by (simpl; ns_lookup; reflexivity). script_unfold.
  erewrite ensure_dir_run by (simpl; ns_lookup; reflexivity). script_unfold.
  erewrite pickle_dump_run;
    [|simpl; ns_lookup; reflexivity | simpl; apply elem_of_ensured].
  script_unfold.
  erewrite pickle_dump_run;
    [|simpl; ns_lookup; reflexivity | simpl; apply elem_of_ensured].
  script_unfold.
  erewrite pickle_dump_run;
    [|simpl; ns_lookup; reflexivity
     |simpl; apply ensured_mono, elem_of_ensured].
  script_unfold.
  erewrite pickle_dump_run;
    [|simpl; ns_lookup; reflexivity
     |simpl; apply ensured_mono, elem_of_ensured].
  reflexivity.
Qed.

(** With [random_state=1] the generator of the process is not consulted. *)
Lemma partition_seeded (rng1 rng2 : RandomState) (fs : list file) :
  partition read_csv seeded permutation rng1 fs =
  partition read_csv seeded permutation rng2 fs.
Proof. reflexivity. Qed.

Lemma written_outputs (a : args)
    (parts : list (list value) * list (list value) * list value * list value)
    (w1 w2 : World) :
  Forall (λ out, files (written a parts w1) !! out = files (written a parts w2) !! out ∧
                 is_Some (files (written a parts w1) !! out))
         (outputs a).
Proof.
  destruct parts as [[[X_train X_test] Y_train] Y_test].
  destruct w1 as [fs1 ? ? ? ? ? ? ?], w2 as [fs2 ? ? ? ? ? ? ?].
  unfold outputs, written. simpl.
  repeat constructor; rewrite ?lookup_insert_eq;
    repeat (rewrite lookup_insert_ne by (intros [= ? ?]; discriminate);
            rewrite ?lookup_insert_eq);
    eauto.
Qed.

(** What the four files hold once the parts have been written. *)
Lemma written_files (a : args) (X_train X_test : list (list value))
    (Y_train Y_test : list value) (w : World) :
  Forall (λ out, files (written a (X_train, X_test, Y_train, Y_test) w) !! out.1
                 = Some out.2)
         (written_parts a X_train X_test Y_train Y_test).
Proof.
  destruct w as [fs ? ? ? ? ? ? ?].
  unfold written_parts, written. simpl.
  repeat constructor; simpl; rewrite ?lookup_insert_eq;
    repeat (rewrite lookup_insert_ne by (intros [= ? ?]; discriminate);
            rewrite ?lookup_insert_eq);
    eauto.
Qed.


(** Files without records give frames without records, unless one of them
    makes the parser raise. *)
Lemma mapM_read_csv_no_records (fs : list file) :
  Forall (λ f, read_csv f = Ok [] ∨ ∃ msg, read_csv f = Raise (ValueError msg)) fs →
  (∃ msg, mapM read_csv fs = Raise (ValueError msg)) ∨
  (∃ frames, mapM read_csv fs = Ok frames ∧ concat frames = [] ∧
             length frames = length fs).
Proof.
  induction 1 as [|f fs Hf _ IH]; [right; by exists []|].
  change (mapM read_csv (f :: fs))
    with (y ← read_csv f; r ← mapM read_csv fs; mret (y :: r)).
  destruct Hf as [-> | [msg ->]]; [|left; by exists msg].
  destruct IH as [[msg ->] | (frames & -> & Hconcat & Hlen)];
    [left; by exists msg|].
  right. exists ([] :: frames). simpl. by rewrite Hlen.
Qed.

Lemma partition_no_records (rng : RandomState) (fs : list file) :
  Forall (λ f, read_csv f = Ok [] ∨ ∃ msg, read_csv f = Raise (ValueError msg)) fs →
  ∃ msg, partition read_csv seeded permutation rng fs = Raise (ValueError msg).
Proof.
  intros Hfs. unfold partition.
  destruct (mapM_read_csv_no_records fs Hfs)
    as [[msg ->] | (frames & -> & Hconcat & Hlen)]; [by exists msg|].
  change (mbind ?k (Ok frames)) with (k frames).
  destruct frames as [|frame frames]; [by eexists|].
  unfold pd_concat. rewrite Hconcat.
  change (mbind ?k (Ok ?x)) with (k x).
  by eexists.
Qed.


End PreprocessFacts.

Section PreprocessExamples.
Import Py Lib Preprocess Examples MoreExamples.

Lemma csv_listed : glob_match "*.csv" "iris.csv".
Proof. by vm_compute. Qed.

Lemma txt_not_listed : ¬ glob_match "*.csv" "README.txt".
Proof. by vm_compute. Qed.

Lemma data_listed : dir_match "data" "data".
Proof. by vm_compute. Qed.

Lemma ingested_listing :
  listing "data" "*.csv" ingested =
  {[ ("data", "iris.csv") := Text "5.1,3.5,1.4,0.2,Iris-setosa" ]}.
Proof.
  unfold listing, ingested. cbn [files].
  by rewrite map_filter_singleton_True by (split; [exact data_listed | exact csv_listed]).
Qed.

Lemma ingested_same_listing :
  listing "data" "*.csv" ingested = listing "data" "*.csv" ingested_elsewhere.
Proof.
  rewrite ingested_listing. unfold listing, ingested_elsewhere. cbn [files].
  rewrite map_filter_insert_True by (split; [exact data_listed | exact csv_listed]).
  rewrite map_filter_singleton_False by (intros [_ H]; exact (txt_not_listed H)).
  by rewrite insert_empty.
Qed.

Lemma ingested_same_input :
  input_files any_order preprocess_args ingested =
  input_files any_order preprocess_args ingested_elsewhere.
Proof.
  unfold input_files. change (iris_data_dir preprocess_args) with "data".
  by rewrite ingested_same_listing.
Qed.

Lemma ingested_partition (rng : Z) :
  partition reads_two_records id reversal rng
    (input_files any_order preprocess_args ingested) =
  Ok ([[Num 5.1; Num 3.5; Num 1.4; Num 0.2]],
      [[Num 7.0; Num 3.2; Num 4.7; Num 1.4]],
      [Str "Iris-setosa"], [Str "Iris-versicolor"]).
Proof.
  unfold input_files. change (iris_data_dir preprocess_args) with "data".
  rewrite ingested_listing, scandir_order_singleton. reflexivity.
Qed.

Lemma nothing_ingested_listing :
  listing "data" "*.csv" nothing_ingested =
  {[ ("data", "iris.csv") := Text EmptyString ]}.
Proof.
  unfold listing, nothing_ingested. cbn [files].
  rewrite map_filter_insert_True by (split; [exact data_listed | exact csv_listed]).
  rewrite map_filter_singleton_False by (intros [_ H]; exact (txt_not_listed H)).
  by rewrite insert_empty.
Qed.


Lemma two_files_listing :
  listing "data" "*.csv" two_files = files two_files.
Proof.
  unfold listing, two_files. cbn [files].
  rewrite map_filter_insert_True by (split; by vm_compute).
  by rewrite map_filter_singleton_True by (split; by vm_compute).
Qed.




End PreprocessExamples.

(** ** More on the sidecar *)

Section SidecarStartup.
Import Sidecar.

(** The successes still needed before the first poll. *)
Lemma polls_from_needs_successes (os : list outcome) (p : phase) :
  length (filter (λ o, succeeded o = true) os) <
    match p with AwaitToken => 2 | AwaitLogin => 1 | Polling => 0 end →
  polls_from p os = [].
Proof.
  revert p. induction os as [|o os IH]; intros p Hfew; [reflexivity|].
  destruct p; [| |simpl in Hfew; lia]; simpl polls_from;
    destruct (succeeded o) eqn:Ho;
    [ rewrite filter_cons_True in Hfew by exact Ho
    | rewrite filter_cons_False in Hfew by congruence
    | rewrite filter_cons_True in Hfew by exact Ho
    | rewrite filter_cons_False in Hfew by congruence ];
    simpl in Hfew; apply IH; simpl; lia.
Qed.

(** X1: as long as fewer than two of the commands run so far have
    succeeded (the token request and the login each have to succeed once),
    the key vault has not been polled and the served file still holds the
    placeholder, whatever the failed attempts printed. *)
Theorem placeholder_until_logged_in (os : list outcome) :
  length (filter (λ o, succeeded o = true) os) < 2 →
  polls os = [] ∧ index_html (run os) = placeholder.
Proof.
  intros Hfew.
  assert (polls os = []) as Hnone by by apply polls_from_needs_successes.
  split; [exact Hnone|].
  unfold run. rewrite foldl_step_index_html.
  change (polls_from (at_ start) os) with (polls os). by rewrite Hnone.
Qed.

Lemma placeholder_until_logged_in_witness :
  let os := [ {| out := "curl: (28) timed out"; status := 28 |};
              {| out := "token"; status := 0 |};
              {| out := "ERROR: no identity"; status := 1 |} ] in
  length (filter (λ o, succeeded o = true) os) < 2 ∧
  polls os = [] ∧ index_html (run os) = placeholder.
Proof.
  intros os.
  assert (length (filter (λ o, succeeded o = true) os) < 2) as Hfew
    by (vm_compute; lia).
  exact (conj Hfew (placeholder_until_logged_in os Hfew)).
Defined.

Lemma foldl_step_polling (more : list outcome) (s : state) :
  at_ s = Polling →
  at_ (foldl step s more) = Polling ∧
  polls_from Polling more = out <$> more.
Proof.
  revert s. induction more as [|o more IH]; intros s Hs; [done|].
  simpl foldl. destruct (IH (step s o)) as [IH1 IH2].
  { by rewrite step_phase, Hs. }
  split; [exact IH1|]. simpl. by rewrite IH2.
Qed.

Lemma polls_from_app (os more : list outcome) (s : state) :
  at_ (foldl step s os) = Polling →
  polls_from (at_ s) (os ++ more) =
    (polls_from (at_ s) os ++ (out <$> more))%list.
Proof.
  revert s. induction os as [|o os IH]; intros s Hpoll.
  - simpl in *. rewrite Hpoll. by apply (foldl_step_polling more s).
  - simpl foldl in Hpoll. specialize (IH (step s o) Hpoll).
    rewrite step_phase in IH. simpl.
    destruct (at_ s); try exact IH. simpl. by rewrite IH.
Qed.

(** X2: polling is never left.  Once the container polls, every further
    command is a poll of the key vault: the container keeps polling, and
    the served file holds what the last of these polls printed (what it
    held before, if there was none). *)
Theorem polling_goes_on (os more : list outcome) :
  at_ (run os) = Polling →
  at_ (run (os ++ more)) = Polling ∧
  polls (os ++ more) = (polls os ++ (out <$> more))%list ∧
  index_html (run (os ++ more)) =
    default (index_html (run os)) (last (out <$> more)).
Proof.
  intros Hpoll. unfold run in *. rewrite foldl_app.
  destruct (foldl_step_polling more (foldl step start os) Hpoll) as [H1 H2].
  split; [exact H1|]. split.
  - exact (polls_from_app os more start Hpoll).
  - rewrite foldl_step_index_html, Hpoll. by rewrite H2.
Qed.

Lemma polling_goes_on_witness :
  let ok := {| out := "ok"; status := 0 |} in
  let listing := {| out := "[secret-1]"; status := 0 |} in
  let denied := {| out := ""; status := 1 |} in
  at_ (run [ok; ok]) = Polling ∧
  at_ (run ([ok; ok] ++ [listing; denied])) = Polling ∧
  polls ([ok; ok] ++ [listing; denied]) =
    (polls [ok; ok] ++ (out <$> [listing; denied]))%list ∧
  index_html (run ([ok; ok] ++ [listing; denied])) =
    default (index_html (run [ok; ok])) (last (out <$> [listing; denied])).
Proof.
  intros ok listing denied.
  exact (conj eq_refl (polling_goes_on [ok; ok] [listing; denied] eq_refl)).
Defined.

End SidecarStartup.

(** ** ingest.py and train.py *)

Section IngestFacts.
Import Py Lib Ingest.

Context (urlopen : string → result string).

(** The script is the download, written to [iris.csv] of the directory it
    made sure of. *)
Lemma ingest_py_run (a : args) (w : World) :
  ∃ ns,
    ingest_py urlopen a w =
    match urlopen (urls a) with
    | Ok body =>
        (Ok (),
         set_files <[(iris_data_dir a, "iris.csv") := Text body]>
           (set_dirs (ensured (iris_data_dir a)) (set_namespace (λ _, ns) w)))
    | Raise e =>
        (Raise e, set_dirs (ensured (iris_data_dir a)) (set_namespace (λ _, ns) w))
    end.
Proof.
  destruct w as [fs ds env ns reg envs svc cs]. eexists.
  unfold ingest_py, urlretrieve. script_run.
  erewrite ensure_dir_run by (simpl; ns_lookup; reflexivity).
  script_run.
  destruct (urlopen (urls a)) as [body|e]; script_run; [|reflexivity].
  rewrite write_text_run by (simpl; apply elem_of_ensured).
  reflexivity.
Qed.

Lemma iris_csv_listed : glob_match "*.csv" "iris.csv".
Proof. by vm_compute. Qed.



End IngestFacts.

Section TrainFacts.
Import Py Lib Train.

Context (fit : list (list value) → list value → result classifier).

(** The training data as the script loads it: the two files, unpickled. *)
Lemma train_py_loaded (a : args) (w : World)
    (X : list (list value)) (y : list value) :
  files w !! (train_dir a, "X_train.sav") = Some (Pickle (PMatrix X)) →
  files w !! (train_dir a, "Y_train.sav") = Some (Pickle (PVector y)) →
  ∃ ns,
    train_py fit a w =
    match fit X y with
    | Ok m =>
        (Ok (),
         set_files <[(output_dir a, "model.pt") := Pickle (PModel m)]>
           (set_dirs (ensured (output_dir a)) (set_namespace (λ _, ns) w)))
    | Raise e =>
        (Raise e, set_dirs (ensured (output_dir a)) (set_namespace (λ _, ns) w))
    end.
Proof.
  destruct w as [fs ds env ns reg envs svc cs]. simpl. intros HX Hy. eexists.
  unfold train_py, call_fit. script_run.
  erewrite ensure_dir_run by (simpl; ns_lookup; reflexivity).
  script_run. rewrite HX. script_run. rewrite Hy. script_run.
  destruct (fit X y) as [m|e]; script_run; [|reflexivity].
  erewrite pickle_dump_run;
    [|simpl; ns_lookup; reflexivity | simpl; apply elem_of_ensured].
  reflexivity.
Qed.

(** X6: train.py writes a model only when the fit has succeeded.  In every
    world, a run that ends in an exception (a training file missing or not
    a pickle, data of the wrong kind, a failing fit) has changed no file,
    and a run that ends well has changed one file only, [model.pt] of the
    output directory, which then holds a fitted classifier. *)
Theorem train_writes_only_a_fitted_model (a : args) (w : World) :
  let r := train_py fit a w in
  match r.1 with
  | Ok _ =>
      ∃ m, files r.2 = <[(output_dir a, "model.pt") := Pickle (PModel m)]> (files w)
  | Raise _ => files r.2 = files w
  end.
Proof.
  destruct w as [fs ds env ns reg envs svc cs].
  unfold train_py, call_fit. script_run.
  erewrite ensure_dir_run by (simpl; ns_lookup; reflexivity).
  script_run.
  destruct (fs !! (train_dir a, "X_train.sav")) as [[t|oX]|]; script_run;
    try reflexivity.
  destruct (fs !! (train_dir a, "Y_train.sav")) as [[t|oy]|]; script_run;
    try reflexivity.
  destruct oX; try reflexivity; destruct oy; try reflexivity.
  destruct (fit rows v) as [m|e]; script_run; [|reflexivity].
  erewrite pickle_dump_run;
    [|simpl; ns_lookup; reflexivity | simpl; apply elem_of_ensured].
  simpl. by exists m.
Qed.

End TrainFacts.

Section PreprocessTrainFacts.
Import Py Lib.

Context (read_csv : file → result (list row)).
Context {RandomState : Type}.
Context (seeded : Z → RandomState).
Context (permutation : RandomState → nat → list nat).
Context (fit : list (list value) → list value → result classifier).


End PreprocessTrainFacts.

(** ** evaluate.py in every world *)

Section EvaluateAlways.
Import Py Lib Evaluate.

Lemma evaluate_py_outcome (a : args) (w : World) :
  files (evaluate_py a w).2 = files w ∧
  dirs (evaluate_py a w).2 = dirs w ∧
  ∃ e, (evaluate_py a w).1 = Raise e.
Proof.
  destruct w as [fs ds env ns reg envs svc cs].
  unfold evaluate_py, call_predict, call_accuracy_score, ensure_dir.
  script_run.
  destruct (fs !! (model_dir a, "model.pt")) as [[t|om]|]; script_run;
    [by eauto 10 | | by eauto 10].
  destruct (fs !! (test_dir a, "X_test.sav")) as [[t|oX]|]; script_run;
    [by eauto 10 | | by eauto 10].
  destruct (fs !! (test_dir a, "Y_test.sav")) as [[t|oy]|]; script_run;
    [by eauto 10 | | by eauto 10].
  destruct om; script_run; try (by eauto 10).
  destruct oX; script_run; try (by eauto 10).
  destruct (predict m rows) as [preds|e]; script_run; [|by eauto 10].
  destruct oy; script_run; try (by eauto 10).
  destruct (accuracy_score v preds) as [acc|e]; script_run; by eauto 10.
Qed.

(** X7: evaluate.py never ends well and never writes.  In every world
    and for all arguments the run ends in an exception (at the latest the
    NameError at [os.path.exists]), and no file and no directory has been
    created or changed by then. *)
Theorem evaluate_py_never_completes (a : args) (w : World) :
  (∃ e, (evaluate_py a w).1 = Raise e) ∧
  files (evaluate_py a w).2 = files w ∧
  dirs (evaluate_py a w).2 = dirs w.
Proof. destruct (evaluate_py_outcome a w) as (? & ? & ?). by repeat split. Qed.

End EvaluateAlways.

(** ** deploy.py in every world *)

Section DeployAlways.
Import Py Lib Deploy.

Context (scoring_uri : webservice → string).

(** The two ways a run of deploy.py can go: it makes no workspace call
    (and then writes the address of the endpoint that is there, or fails
    and writes nothing), or it registers, replaces the endpoint and writes
    the new address. *)
Lemma deploy_py_outcomes (a : args) (w : World) :
  ∃ r w',
    deploy_py scoring_uri a w = (r, w') ∧
    ((calls w' = calls w ∧ registry w' = registry w ∧ services w' = services w ∧
      ((∃ e, r = Raise e ∧ files w' = files w) ∨
       (∃ s, r = Ok () ∧ services w !! service_name = Some s ∧
             files w' = <[(model_dir a, "scoring_uri.txt") := Text (scoring_uri s)]>
                          (files w)))) ∨
     (∃ accuracy,
        let nm := new_model (model_dir a) accuracy (test_dir a) in
        r = Ok () ∧
        files w !! (accuracy_dir a, "accuracy_file") = Some (Pickle accuracy) ∧
        calls w' = (registering_calls w nm ++ calls w)%list ∧
        registry w' = <[model_name := nm]> (registry w) ∧
        services w' = <[service_name := new_service nm]> (services w) ∧
        files w' = <[(model_dir a, "scoring_uri.txt") :=
                       Text (scoring_uri (new_service nm))]> (files w))).
Proof.
  rewrite (deploy_py_prelude scoring_uri a w).
  destruct (files w !! (accuracy_dir a, "accuracy_file")) as [[t|accuracy]|] eqn:Hfile;
    [ eexists _, _; split; [reflexivity|]; left; simpl; by eauto 10
    | | eexists _, _; split; [reflexivity|]; left; simpl; by eauto 10 ].
  destruct (prepared_names a w) as (H1 & H2 & H3 & H4 & H5).
  rewrite run_bind.
  destruct (gate_outcomes (model_dir a) accuracy (test_dir a) (prepared a w) _ _ H1 H2)
    as [Hgate|[[m Hgate]|[e Hgate]]]; rewrite Hgate.
  - rewrite run_bind.
    erewrite publish_run_new by (simpl; eassumption).
    change (print;; ?k) with k.
    rewrite write_text_run
      by (simpl; destruct (services w !! service_name); simpl; apply elem_of_ensured).
    eexists _, _. split; [reflexivity|]. right. exists accuracy.
    split; [reflexivity|]. split; [reflexivity|]. simpl.
    unfold registering_calls.
    destruct (services w !! service_name); simpl;
      rewrite ?insert_delete_eq; done.
  - rewrite run_bind.
    erewrite publish_run_old by (simpl; eassumption).
    change (services (prepared a w)) with (services w).
    destruct (services w !! service_name) as [s|] eqn:Hs;
      [|eexists _, _; split; [reflexivity|]; left; simpl; by eauto 10].
    change (print;; ?k) with k.
    rewrite write_text_run by (simpl; apply elem_of_ensured).
    eexists _, _. split; [reflexivity|]. left. simpl. eauto 10.
  - eexists _, _. split; [reflexivity|]. left. simpl. eauto 10.
Qed.

Lemma deploy_py_frame_files (a : args) (w : World) (key : string * string) :
  key ≠ (model_dir a, "scoring_uri.txt") →
  files (deploy_py scoring_uri a w).2 !! key = files w !! key.
Proof.
  intros Hkey.
  destruct (deploy_py_outcomes a w) as (r & w' & -> & Hcases). cbn [snd].
  destruct Hcases as [(_ & _ & _ & [(e & _ & ->) | (s & _ & _ & ->)])
                     | (acc & _ & _ & _ & _ & _ & ->)];
    [done | by rewrite lookup_insert_ne..].
Qed.

(** X9: what deploy.py never touches.  In every world a run leaves
    the models registered under other names, the endpoints published
    under other names and every file but [scoring_uri.txt] of the model
    directory as they were. *)
Theorem deploy_py_frame (a : args) (w : World) :
  let w' := (deploy_py scoring_uri a w).2 in
  (∀ name, name ≠ model_name → registry w' !! name = registry w !! name) ∧
  (∀ name, name ≠ service_name → services w' !! name = services w !! name) ∧
  (∀ key, key ≠ (model_dir a, "scoring_uri.txt") →
          files w' !! key = files w !! key).
Proof.
  intros w'. subst w'.
  destruct (deploy_py_outcomes a w) as (r & w' & -> & Hcases). cbn [snd].
  destruct Hcases as [(_ & -> & -> & Hfiles) | (acc & _ & _ & _ & -> & -> & ->)].
  - split; [done|]. split; [done|]. intros key Hkey.
    destruct Hfiles as [(e & _ & ->) | (s & _ & _ & ->)]; [done|].
    by rewrite lookup_insert_ne.
  - split; [|split]; intros k Hk; by rewrite lookup_insert_ne.
Qed.

(** X10: the address written is the address of the endpoint in place.
    When a run ends well, an endpoint is published under the service name
    and [scoring_uri.txt] of the model directory holds its address,
    whether the endpoint was deployed by this run or left from an earlier
    one; when a run ends in an exception it has written no file. *)
Theorem deploy_py_writes_the_served_address (a : args) (w : World) :
  let r := deploy_py scoring_uri a w in
  match r.1 with
  | Ok _ =>
      ∃ s, services r.2 !! service_name = Some s ∧
           files r.2 !! (model_dir a, "scoring_uri.txt") = Some (Text (scoring_uri s))
  | Raise _ => files r.2 = files w
  end.
Proof.
  intros r. subst r.
  destruct (deploy_py_outcomes a w) as (r & w' & -> & Hcases). cbn [fst snd].
  destruct Hcases as [(_ & _ & -> & [(e & -> & ->) | (s & -> & Hs & ->)])
                     | (acc & -> & _ & _ & _ & -> & ->)].
  - reflexivity.
  - exists s. split; [exact Hs | apply lookup_insert_eq].
  - eexists. split; apply lookup_insert_eq.
Qed.

End DeployAlways.

Section DeployEdges.
Import Py Lib Deploy.

Context (scoring_uri : webservice → string).


(** The gate on a registered model whose tags are not both there. *)
Lemma gate_run_untagged md' accuracy test_dir w o m :
  namespace w !! "Model" = Some o →
  registry w !! model_name = Some m →
  tags m !! "accuracy" = None ∨ tags m !! "test_data" = None →
  gate md' accuracy test_dir w =
  (Raise (KeyError (if tags m !! "accuracy" is Some _ then "test_data" else "accuracy")), w).
Proof.
  destruct w as [fs ds env ns reg envs svc cs]. simpl. intros HM Hreg Htags.
  unfold gate, Model_get, getitem. script_unfold.
  rewrite HM. script_unfold. rewrite Hreg. script_unfold.
  destruct (tags m !! "accuracy") as [pa|]; script_unfold; [|reflexivity].
  destruct Htags as [?|Htd]; [done|]. rewrite Htd. reflexivity.
Qed.

(** The gate on a registered model whose accuracy tag is a text, on the
    test set it is tagged with. *)
Lemma gate_run_text_accuracy md' (acc : Q) test_dir w o m (s : string) :
  namespace w !! "Model" = Some o →
  registry w !! model_name = Some m →
  tags m !! "accuracy" = Some (PStr s) →
  tags m !! "test_data" = Some (PStr test_dir) →
  gate md' (PFloat acc) test_dir w = (Raise TypeError, w).
Proof.
  destruct w as [fs ds env ns reg envs svc cs]. simpl. intros HM Hreg Hp Hd.
  unfold gate, Model_get, getitem, py_ne, py_ge. script_unfold.
  rewrite HM. script_unfold. rewrite Hreg. script_unfold.
  rewrite Hp, Hd. script_unfold. rewrite String.eqb_refl. reflexivity.
Qed.

(** A run in which the gate raises: the exception leaves the script, and
    nothing has been called or written. *)
Lemma deploy_py_gate_raises (a : args) (w : World) (accuracy : pyobj) (e : exn) :
  files w !! (accuracy_dir a, "accuracy_file") = Some (Pickle accuracy) →
  gate (model_dir a) accuracy (test_dir a) (prepared a w) = (Raise e, prepared a w) →
  deploy_py scoring_uri a w = (Raise e, prepared a w).
Proof.
  intros Hacc Hgate. rewrite (deploy_py_prelude scoring_uri a w), Hacc.
  by rewrite run_bind, Hgate.
Qed.

(** X11: a registered model without one of the two tags stops the
    stage.  The lookup of the missing tag raises KeyError, which the
    [except WebserviceException] does not catch: the run ends in KeyError
    for the first missing tag and has registered, deleted, deployed and
    written nothing. *)
Theorem deploy_py_untagged_model (a : args) (w : World) (accuracy : pyobj)
    (m : registered_model) :
  files w !! (accuracy_dir a, "accuracy_file") = Some (Pickle accuracy) →
  registry w !! model_name = Some m →
  tags m !! "accuracy" = None ∨ tags m !! "test_data" = None →
  let r := deploy_py scoring_uri a w in
  r.1 = Raise (KeyError (if tags m !! "accuracy" is Some _ then "test_data" else "accuracy")) ∧
  calls r.2 = calls w ∧ registry r.2 = registry w ∧ services r.2 = services w ∧
  files r.2 = files w.
Proof.
  intros Hacc Hreg Htags r. subst r.
  destruct (prepared_names a w) as (H1 & _).
  erewrite deploy_py_gate_raises; [done | exact Hacc |].
  by eapply gate_run_untagged.
Qed.

(** X12: an accuracy tag that comes back as text stops the stage.  When
    the registered model is tagged with the test set of this run and its
    accuracy tag is a string, the comparison [prev_accuracy >= accuracy]
    with the number of this run raises TypeError: the run ends in
    TypeError and has registered, deleted, deployed and written nothing. *)
Theorem deploy_py_text_accuracy_tag (a : args) (w : World) (acc : Q)
    (m : registered_model) (s : string) :
  files w !! (accuracy_dir a, "accuracy_file") = Some (Pickle (PFloat acc)) →
  registry w !! model_name = Some m →
  tags m !! "accuracy" = Some (PStr s) →
  tags m !! "test_data" = Some (PStr (test_dir a)) →
  let r := deploy_py scoring_uri a w in
  r.1 = Raise TypeError ∧
  calls r.2 = calls w ∧ registry r.2 = registry w ∧ services r.2 = services w ∧
  files r.2 = files w.
Proof.
  intros Hacc Hreg Hp Hd r. subst r.
  destruct (prepared_names a w) as (H1 & _).
  erewrite deploy_py_gate_raises; [done | exact Hacc |].
  by eapply gate_run_text_accuracy.
Qed.

(** X13: a kept model does not bring back a missing endpoint.  When the
    gate keeps the registered model (same test set, strictly higher new
    accuracy) and no endpoint is published under the service name, the
    script looks the endpoint up, ends in WebserviceException and has
    deployed and written nothing. *)
Theorem deploy_py_kept_model_without_endpoint (a : args) (w : World) (acc p : Q)
    (m : registered_model) :
  files w !! (accuracy_dir a, "accuracy_file") = Some (Pickle (PFloat acc)) →
  registry w !! model_name = Some m →
  tags m !! "accuracy" = Some (PFloat p) →
  tags m !! "test_data" = Some (PStr (test_dir a)) →
  (p < acc)%Q →
  services w !! service_name = None →
  let r := deploy_py scoring_uri a w in
  r.1 = Raise WebserviceException ∧
  calls r.2 = calls w ∧ registry r.2 = registry w ∧ services r.2 = services w ∧
  files r.2 = files w.
Proof.
  intros Hacc Hreg Hp Hd Hlt Hnone r. subst r.
  destruct (prepared_names a w) as (H1 & H2 & H3 & _).
  rewrite (deploy_py_prelude scoring_uri a w), Hacc, run_bind.
  rewrite (gate_run_registered (model_dir a) acc (test_dir a) (prepared a w)
             _ _ m p (test_dir a) H1 H2 Hreg Hp Hd).
  rewrite String.eqb_refl.
  assert (Qle_bool acc p = false) as ->.
  { apply not_true_is_false. rewrite Qle_bool_iff. by apply Qlt_not_le. }
  cbn [negb orb]. rewrite run_bind.
  erewrite publish_run_old by exact H3.
  change (services (prepared a w)) with (services w). by rewrite Hnone.
Qed.

End DeployEdges.

(** ** deploy.py: the gate in every state of the registry *)

Section DeployGate.
Import Py Lib Deploy.

Context (scoring_uri : webservice → string).

Lemma py_ne_PStr (o : pyobj) (s : string) :
  py_ne o (PStr s) = false ↔ o = PStr s.
Proof.
  destruct o as [|q|t|rows|v|m|name]; simpl; try (split; [discriminate|by intros [=]]).
  rewrite negb_false_iff. destruct (String.eqb_spec t s) as [->|Hne].
  - done.
  - split; [discriminate|]. intros [= ->]. by destruct Hne.
Qed.

(** A model under the name that carries both tags, whatever they hold:
    the test of the script, [prev_test_dir != test_dir or prev_accuracy >=
    accuracy], of which the second part is only evaluated when the first
    is false. *)
Lemma gate_run_tagged md' (acc : Q) test_dir w o md m pa pt :
  namespace w !! "Model" = Some o →
  namespace w !! "model_dir" = Some (PStr md) →
  registry w !! model_name = Some m →
  tags m !! "accuracy" = Some pa →
  tags m !! "test_data" = Some pt →
  let nm := new_model md (PFloat acc) test_dir in
  gate md' (PFloat acc) test_dir w =
  if py_ne pt (PStr test_dir) then (Ok (nm, true), register nm w)
  else match pa with
       | PFloat p =>
           if Qle_bool acc p then (Ok (nm, true), register nm w)
           else (Ok (m, false), w)
       | _ => (Raise TypeError, w)
       end.
Proof.
  intros HM Hmd Hreg Hp Hd nm.
  pose proof (register_model_run md' model_name (PFloat acc) test_dir w o md HM Hmd)
    as Hregister.
  destruct w as [fs ds env ns reg envs svc cs]. simpl in *.
  unfold gate, Model_get, getitem. script_unfold.
  rewrite HM. script_unfold. rewrite Hreg. script_unfold.
  rewrite Hp, Hd. script_unfold.
  destruct (py_ne pt (PStr test_dir)); script_unfold.
  { by rewrite Hregister. }
  unfold py_ge. destruct pa; script_unfold; try reflexivity.
  destruct (Qle_bool acc q); script_unfold; [|reflexivity].
  by rewrite Hregister.
Qed.

(** What a run leaves behind, by the outcome of the gate. *)
Lemma deploy_py_after_gate (a : args) (w : World) (acc : Q) :
  files w !! (accuracy_dir a, "accuracy_file") = Some (Pickle (PFloat acc)) →
  let r := deploy_py scoring_uri a w in
  let nm := new_model (model_dir a) (PFloat acc) (test_dir a) in
  let g := gate (model_dir a) (PFloat acc) (test_dir a) (prepared a w) in
  (g = (Ok (nm, true), register nm (prepared a w)) →
     performed w r.2 = registering_calls w nm ∧
     registry r.2 !! model_name = Some nm ∧
     services r.2 !! service_name = Some (new_service nm)) ∧
  (∀ m, g = (Ok (m, false), prepared a w) →
     performed w r.2 = [] ∧ registry r.2 = registry w ∧ services r.2 = services w) ∧
  (∀ e, g = (Raise e, prepared a w) →
     r.1 = Raise e ∧
     performed w r.2 = [] ∧ registry r.2 = registry w ∧ services r.2 = services w).
Proof.
  intros Hacc r nm g. subst r g. split; [|split].
  - intros Hgate.
    rewrite (deploy_py_registering scoring_uri a w (PFloat acc) Hacc Hgate).
    unfold registering_calls. split; [|split].
    + apply performed_app. simpl. by destruct (services w !! service_name).
    + simpl. destruct (services w !! service_name); simpl; apply lookup_insert_eq.
    + simpl. apply lookup_insert_eq.
  - intros m Hgate.
    destruct (deploy_py_keeping scoring_uri a w (PFloat acc) m Hacc Hgate)
      as (r & w' & -> & Hreg & Hsvc & Hcalls).
    simpl. split; [|by split]. by apply (performed_app []).
  - intros e Hgate.
    rewrite (deploy_py_gate_raises scoring_uri a w (PFloat acc) e Hacc Hgate).
    simpl. split; [reflexivity|]. split; [|by split].
    by apply (performed_app []).
Qed.

Lemma registering_calls_register (w : World) (nm : registered_model) :
  registrations (registering_calls w nm) ≠ [].
Proof. unfold registering_calls. by destruct (services w !! service_name). Qed.

(** The gate by what the registry holds: it registers the new model,
    keeps the registered one, or ends in an exception. *)
Lemma gate_by_tags (a : args) (w : World) (acc : Q) :
  let nm := new_model (model_dir a) (PFloat acc) (test_dir a) in
  let g := gate (model_dir a) (PFloat acc) (test_dir a) (prepared a w) in
  (registers w acc (test_dir a) ∧ gate_exception w (test_dir a) = None ∧
   g = (Ok (nm, true), register nm (prepared a w))) ∨
  (¬ registers w acc (test_dir a) ∧ gate_exception w (test_dir a) = None ∧
   ∃ m, g = (Ok (m, false), prepared a w)) ∨
  (¬ registers w acc (test_dir a) ∧
   ∃ e, gate_exception w (test_dir a) = Some e ∧ g = (Raise e, prepared a w)).
Proof.
  intros nm g. subst g.
  destruct (prepared_names a w) as (H1 & H2 & _).
  unfold registers, gate_exception, found_tags.
  destruct (registry w !! model_name) as [m|] eqn:Hreg; simpl.
  2:{ left. split; [done|]. split; [done|].
      by apply (gate_run_new _ _ _ _ _ _ H1 H2). }
  destruct (tags m !! "accuracy") as [pa|] eqn:Hpa.
  2:{ right; right. split; [tauto|]. eexists. split; [reflexivity|].
      rewrite (gate_run_untagged _ _ _ _ _ m H1); [|exact Hreg|by left].
      by rewrite Hpa. }
  destruct (tags m !! "test_data") as [pt|] eqn:Hpt.
  2:{ right; right. split; [tauto|]. eexists. split; [reflexivity|].
      rewrite (gate_run_untagged _ _ _ _ _ m H1); [|exact Hreg|by right].
      by rewrite Hpa. }
  pose proof (gate_run_tagged (model_dir a) acc (test_dir a) (prepared a w)
                _ _ m pa pt H1 H2 Hreg Hpa Hpt) as Hgate.
  cbv zeta in Hgate. fold nm in Hgate.
  pose proof (py_ne_PStr pt (test_dir a)) as Hne.
  destruct (py_ne pt (PStr (test_dir a))).
  { left. split; [|by split]. left. intros E. by apply Hne in E. }
  assert (pt = PStr (test_dir a)) as -> by (by apply Hne).
  destruct pa as [|p|s|rows|v|cl|name];
    try (right; right; split;
         [ intros [?|(? & ? & _)]; done
         | eexists; split; [reflexivity | exact Hgate] ]).
  destruct (Qle_bool acc p) eqn:Hle.
  - left. split; [|by split]. right. exists p. split; [done|].
    apply Qle_not_lt. by apply Qle_bool_iff.
  - right; left. split; [|split; [done|by exists m]].
    intros [?|(p' & [= <-] & Hnot)]; [done|]. apply Hnot.
    apply Qnot_le_lt. intros H. apply Qle_bool_iff in H. congruence.
Qed.

(** For a registry that holds nothing, or a model tagged with a number
    and an identity, the script's condition is the one of the claim. *)
Lemma registers_stored (w : World) (acc : Q) (test_dir : string)
    (previous : option (Q * string)) :
  stored w previous →
  (registers w acc test_dir ↔ registration_due previous acc test_dir) ∧
  gate_exception w test_dir = None.
Proof.
  unfold stored, registers, gate_exception, found_tags.
  destruct previous as [[p d]|].
  - intros (m & -> & Hp & Hd). simpl. rewrite Hp, Hd. split.
    + split.
      * intros [Hne|(p' & [= <-] & Hnot)]; [left|by right].
        intros ->. by destruct Hne.
      * intros [Hne|Hnot]; [left|right; by exists p].
        intros [= ->]. by destruct Hne.
    + by destruct (py_ne (PStr d) (PStr test_dir)).
  - intros ->. done.
Qed.


End DeployGate.

Section DeployGateExamples.
Import Py Lib Deploy Examples MoreExamples.

Lemma lower_accuracy_registers : registers (deploy_inputs 0.85) 0.85 "A".
Proof.
  unfold registers, found_tags, deploy_inputs. cbn [registry].
  rewrite lookup_singleton_eq. simpl. right. exists 0.90%Q. split; [reflexivity|].
  unfold Qlt. simpl. lia.
Qed.



End DeployGateExamples.

(** ** score.py: start-up and requests of every kind *)

Section ScoreAlways.
Import Py Lib Score.

Context (json_loads : string → option json).

Lemma run_keeps_world (raw : string) (w : World) : (run json_loads raw w).2 = w.
Proof.
  destruct w as [fs ds env ns reg envs svc cs].
  unfold run. script_unfold.
  destruct (ns !! "np"); script_unfold; [|reflexivity].
  destruct (ns !! "json"); script_unfold; [|reflexivity].
  destruct (json_loads raw) as [doc|]; script_unfold; [|reflexivity].
  destruct (subscript doc "data") as [data|e]; script_unfold; [|reflexivity].
  destruct (ns !! "model") as [model|]; script_unfold; [|reflexivity].
  destruct model; script_unfold; try reflexivity.
  cbv zeta. destruct (np_array data) as [v|]; script_unfold; [|reflexivity].
  by destruct (predict m [v]).
Qed.

(** X15: the handler is stateless.  Whatever the request and whatever
    the state of the process, [run] leaves the state as it found it; so a
    sequence of requests is answered one by one, each answer being what
    [run] gives for that request alone. *)
Theorem serve_answers_each_request_alone (raws : list string) (w : World) :
  (∀ raw, (run json_loads raw w).2 = w) ∧
  serve json_loads raws w = ((λ raw, (run json_loads raw w).1) <$> raws, w).
Proof.
  split; [intros raw; apply run_keeps_world|].
  induction raws as [|raw raws IH]; [reflexivity|].
  simpl. pose proof (run_keeps_world raw w) as Hkeep.
  destruct (run json_loads raw w) as [r w']. simpl in Hkeep. subst w'.
  by rewrite IH.
Qed.

(** The module body binds the imports and the two functions, not [model]. *)
Lemma score_py_names (w0 : World) :
  (score_py w0).1 = Ok () ∧
  namespace (score_py w0).2 !! "np" = Some (PNamed "np") ∧
  namespace (score_py w0).2 !! "json" = Some (PNamed "json") ∧
  namespace (score_py w0).2 !! "os" = Some (PNamed "os") ∧
  namespace (score_py w0).2 !! "pickle" = Some (PNamed "pickle") ∧
  namespace (score_py w0).2 !! "model" = None ∧
  files (score_py w0).2 = files w0 ∧
  environ (score_py w0).2 = environ w0.
Proof.
  destruct w0 as [fs ds env ns reg envs svc cs].
  unfold score_py. script_run. simpl. ns_lookup. done.
Qed.

(** [init()] in a world where the imports are bound. *)
Lemma init_run (w : World) (o1 o2 : pyobj) :
  namespace w !! "os" = Some o1 →
  namespace w !! "pickle" = Some o2 →
  init w =
  match environ w !! "AZUREML_MODEL_DIR" with
  | None => (Raise TypeError, w)
  | Some d =>
      match files w !! (d, "model.pt") with
      | None => (Raise (FileNotFoundError d "model.pt"), w)
      | Some (Text _) => (Raise UnpicklingError, w)
      | Some (Pickle model) => (Ok (), set_namespace <["model" := model]> w)
      end
  end.
Proof.
  destruct w as [fs ds env ns reg envs svc cs]. simpl. intros Hos Hpickle.
  unfold init, os_getenv. script_unfold. rewrite Hos. script_unfold.
  rewrite ?Hos. script_unfold.
  destruct (env !! "AZUREML_MODEL_DIR") as [d|]; script_unfold; [|reflexivity].
  rewrite Hpickle. script_unfold.
  by destruct (fs !! (d, "model.pt")) as [[t|model]|].
Qed.

Lemma run_unbound_model (raw : string) (w : World) (o1 o2 : pyobj)
    (doc data : json) :
  namespace w !! "np" = Some o1 →
  namespace w !! "json" = Some o2 →
  namespace w !! "model" = None →
  json_loads raw = Some doc →
  subscript doc "data" = Ok data →
  run json_loads raw w = (Raise (NameError "model"), w).
Proof.
  destruct w as [fs ds env ns reg envs svc cs]. simpl.
  intros H1 H2 Hm Hdoc Hdata.
  unfold run. script_unfold. rewrite H1. script_unfold. rewrite H2.
  script_unfold. rewrite Hdoc. script_unfold. rewrite Hdata. script_unfold.
  by rewrite Hm.
Qed.

(** X16: a start-up that fails leaves a service that answers nothing.
    When the variable AZUREML_MODEL_DIR is not set, [init()] ends in
    TypeError; when it names a directory without [model.pt], in
    FileNotFoundError.  Either way the name [model] stays unbound, and
    every later request whose 'data' member is a vector of numbers ends in
    NameError. *)
Theorem init_failure_leaves_model_unbound (w0 : World) (raw : string)
    (doc : json) (xs : list Q) :
  (if environ w0 !! "AZUREML_MODEL_DIR" is Some d
   then files w0 !! (d, "model.pt") = None else True) →
  json_loads raw = Some doc →
  subscript doc "data" = Ok (JArray (JNumber <$> xs)) →
  let started := init (score_py w0).2 in
  started.1 =
    Raise (if environ w0 !! "AZUREML_MODEL_DIR" is Some d
           then FileNotFoundError d "model.pt" else TypeError) ∧
  run json_loads raw started.2 = (Raise (NameError "model"), started.2).
Proof.
  intros Hmissing Hdoc Hdata started. subst started.
  destruct (score_py_names w0) as (_ & Hnp & Hjson & Hos & Hpickle & Hmodel & Hfiles & Henv).
  rewrite (init_run _ _ _ Hos Hpickle), Henv, Hfiles.
  destruct (environ w0 !! "AZUREML_MODEL_DIR") as [d|].
  - rewrite Hmissing. cbn [fst snd]. split; [reflexivity|].
    by eapply run_unbound_model.
  - cbn [fst snd]. split; [reflexivity|]. by eapply run_unbound_model.
Qed.

(** X17: the service answers with the model of the model directory.
    When AZUREML_MODEL_DIR names a directory whose [model.pt] holds a
    pickled classifier, the module body and [init()] end well, and a
    request with a 'data' vector of as many numbers as the classifier has
    features is answered with the one label that classifier predicts. *)
Theorem init_loads_the_served_model (w0 : World) (d : string) (m : classifier)
    (raw : string) (doc : json) (xs : list Q) :
  environ w0 !! "AZUREML_MODEL_DIR" = Some d →
  files w0 !! (d, "model.pt") = Some (Pickle (PModel m)) →
  json_loads raw = Some doc →
  subscript doc "data" = Ok (JArray (JNumber <$> xs)) →
  length xs = n_features m →
  let started := (score_py;; init) w0 in
  started.1 = Ok () ∧
  run json_loads raw started.2 = (Ok [decision m xs], started.2).
Proof.
  intros Henv0 Hfile Hdoc Hdata Hlen started. subst started.
  destruct (score_py_names w0) as (Hok & Hnp & Hjson & Hos & Hpickle & _ & Hfiles & Henv).
  rewrite run_bind.
  destruct (score_py w0) as [r w1]. simpl in *. subst r.
  rewrite (init_run _ _ _ Hos Hpickle), Henv, Henv0, Hfiles, Hfile.
  cbn [fst snd]. split; [reflexivity|].
  eapply run_well_formed; try eassumption.
  - destruct w1; simpl in *. by rewrite lookup_insert_ne.
  - destruct w1; simpl in *. by rewrite lookup_insert_ne.
  - destruct w1; simpl. apply lookup_insert_eq.
Qed.

(** X18: requests that parse but are not feature vectors.  On a started
    service with model [m], a body that is JSON but not an object ends in
    TypeError, an object without a 'data' member in KeyError, and a 'data'
    vector of numbers whose length is not the number of features of [m]
    in ValueError. *)
Theorem run_rejects_other_documents (w : World) (o1 o2 : pyobj) (m : classifier)
    (raw : string) (doc : json) :
  namespace w !! "np" = Some o1 →
  namespace w !! "json" = Some o2 →
  namespace w !! "model" = Some (PModel m) →
  json_loads raw = Some doc →
  match doc with
  | JObject members =>
      match dict_get members "data" with
      | None => (run json_loads raw w).1 = Raise (KeyError "data")
      | Some data =>
          ∀ xs, data = JArray (JNumber <$> xs) → length xs ≠ n_features m →
                ∃ msg, (run json_loads raw w).1 = Raise (ValueError msg)
      end
  | _ => (run json_loads raw w).1 = Raise TypeError
  end.
Proof.
  destruct w as [fs ds env ns reg envs svc cs]. simpl.
  intros H1 H2 Hm Hdoc.
  unfold run. script_unfold. rewrite H1. script_unfold. rewrite H2.
  script_unfold. rewrite Hdoc. script_unfold.
  destruct doc as [| | | | |members]; try reflexivity.
  unfold subscript.
  destruct (dict_get members "data") as [data|]; script_unfold; [|reflexivity].
  rewrite Hm. script_unfold. cbv zeta.
  intros xs -> Hlen. unfold np_array. rewrite mapM_scalar_numbers.
  script_unfold. unfold predict, feature_vector. simpl.
  rewrite length_fmap, bool_decide_eq_false_2 by exact Hlen.
  by eexists.
Qed.

End ScoreAlways.

(** ** preprocess.py: all or nothing, and run again *)

Section PreprocessAlways.
Import Py Lib Preprocess.

Context (read_csv : file → result (list row)).
Context {RandomState : Type}.
Context (seeded : Z → RandomState).
Context (permutation : RandomState → nat → list nat).

Lemma sav_not_listed (base : string) :
  base ∈ ["X_test.sav"; "Y_test.sav"; "X_train.sav"; "Y_train.sav"] →
  ¬ glob_match "*.csv" base.
Proof.
  rewrite !elem_of_cons, elem_of_nil.
  intros [->|[->|[->|[->|[]]]]]; by vm_compute.
Qed.

(** The partition files are no CSV files: writing them changes nothing in
    what [glob] lists. *)
Lemma written_listing (a : args)
    (parts : list (list value) * list (list value) * list value * list value)
    (dir : string) (w : World) :
  listing dir "*.csv" (written a parts w) = listing dir "*.csv" w.
Proof.
  destruct parts as [[[X_train X_test] Y_train] Y_test].
  destruct w as [fs ds env ns reg envs svc cs]. unfold listing. simpl.
  rewrite !map_filter_insert_not; [done|..];
    intros y [_ H]; revert H; apply sav_not_listed;
    rewrite !elem_of_cons; auto.
Qed.

Lemma ensured_elem (d : string) (ds : gset string) : d ∈ ds → ensured d ds = ds.
Proof. intros H. unfold ensured. by rewrite bool_decide_eq_true_2. Qed.



End PreprocessAlways.


(** ** The pipeline: the order of the steps *)

Section PipelineOrderFacts.
Import Pipeline PipelineOrder.

Ltac in_list := repeat (apply list_elem_of_here || apply list_elem_of_further).

Lemma feeds_forward (p s : step) :
  p ∈ pipeline → s ∈ pipeline → feeds p s → position p < position s.
Proof.
  intros Hp Hs. revert s Hs.
  revert p Hp.
  apply (in_pipeline_cases (λ p, ∀ s, s ∈ pipeline → feeds p s → position p < position s));
    apply (in_pipeline_cases (λ s, feeds _ s → position _ < position s));
    intros Hfeeds;
    first [ by vm_compute; lia
          | exfalso; revert Hfeeds; apply (bool_decide_eq_false_1 _); reflexivity ].
Qed.

Lemma downstream_forward (f d : step) :
  downstream pipeline f d → position f < position d.
Proof.
  induction 1 as [x y (Hx & Hy & Hxy) | x y z (Hx & Hy & Hxy) _ IH].
  - by apply feeds_forward.
  - pose proof (feeds_forward x y Hx Hy Hxy). lia.
Qed.

(** X21: the data dependencies agree with the order of the list.  In the
    pipeline the notebook submits, a step that produces an input of
    another stands before it in [steps]; so every step downstream of a
    step stands after it, and no step is downstream of itself: the
    dependency graph has no cycle. *)
Theorem pipeline_steps_in_dependency_order :
  (∀ p s, p ∈ pipeline → s ∈ pipeline → feeds p s → position p < position s) ∧
  (∀ f d, downstream pipeline f d → position f < position d) ∧
  (∀ s, ¬ downstream pipeline s s).
Proof.
  split; [exact feeds_forward|]. split; [exact downstream_forward|].
  intros s Hs. apply downstream_forward in Hs. lia.
Qed.

Ltac feeds_by d := apply (feeds_intro d); in_list.

Lemma in_pipeline_all :
  ingestion_step ∈ pipeline ∧ preprocess_step ∈ pipeline ∧
  train_step ∈ pipeline ∧ evaluate_step ∈ pipeline ∧ deploy_step ∈ pipeline.
Proof. unfold pipeline. repeat split; in_list. Qed.

(** Each step but the first takes an output of the step listed before it. *)
Lemma feeds_next :
  feeds ingestion_step preprocess_step ∧ feeds preprocess_step train_step ∧
  feeds train_step evaluate_step ∧ feeds evaluate_step deploy_step.
Proof.
  split; [feeds_by iris_data_dir|]. split; [feeds_by train_dir|].
  split; [feeds_by model_dir | feeds_by accuracy_dir].
Qed.

Lemma downstream_once (p s : step) :
  p ∈ pipeline → s ∈ pipeline → feeds p s → downstream pipeline p s.
Proof. intros ???. by apply tc_once. Qed.

Lemma downstream_trans (a b c : step) :
  downstream pipeline a b → downstream pipeline b c → downstream pipeline a c.
Proof. unfold downstream. intros ??. by etrans. Qed.

(** X22: the pipeline is a chain.  Of two steps of the pipeline the one
    listed later depends, directly or through other stages, on an output
    of the one listed earlier, and only so: the declared data leave one
    order in which the five scripts can run, the order of [steps], and no
    two of them independent of each other. *)
Theorem pipeline_is_a_chain (s' s : step) :
  s' ∈ pipeline → s ∈ pipeline →
  (position s' < position s ↔ downstream pipeline s' s).
Proof.
  intros Hs' Hs. split; [|apply downstream_forward].
  destruct in_pipeline_all as (I1 & I2 & I3 & I4 & I5).
  destruct feeds_next as (F12 & F23 & F34 & F45).
  pose proof (downstream_once _ _ I1 I2 F12) as D12.
  pose proof (downstream_once _ _ I2 I3 F23) as D23.
  pose proof (downstream_once _ _ I3 I4 F34) as D34.
  pose proof (downstream_once _ _ I4 I5 F45) as D45.
  pose proof (downstream_trans _ _ _ D12 D23) as D13.
  pose proof (downstream_trans _ _ _ D13 D34) as D14.
  pose proof (downstream_trans _ _ _ D14 D45) as D15.
  pose proof (downstream_trans _ _ _ D23 D34) as D24.
  pose proof (downstream_trans _ _ _ D24 D45) as D25.
  pose proof (downstream_trans _ _ _ D34 D45) as D35.
  revert s Hs. revert s' Hs'.
  apply (in_pipeline_cases (λ s', ∀ s, s ∈ pipeline → position s' < position s →
                                       downstream pipeline s' s));
    apply (in_pipeline_cases (λ s, position _ < position s →
                                   downstream pipeline _ s));
    intros Hpos;
    first [ exfalso; vm_compute in Hpos; lia | assumption ].
Qed.

Lemma pipeline_is_a_chain_witness :
  ingestion_step ∈ pipeline ∧ deploy_step ∈ pipeline ∧
  (position ingestion_step < position deploy_step ↔
   downstream pipeline ingestion_step deploy_step).
Proof.
  destruct in_pipeline_all as (I1 & _ & _ & _ & I5).
  exact (conj I1 (conj I5 (pipeline_is_a_chain ingestion_step deploy_step I1 I5))).
Defined.

End PipelineOrderFacts.

(** ** init-lab-vm.ps1 *)

Section LabVmFacts.
Import LabVm.

Lemma append_assoc (a b c : string) : (a ++ b) ++ c = a ++ (b ++ c).
Proof.
  induction a as [|ch a IH]; [reflexivity|].
  change (String ch ((a ++ b) ++ c) = String ch (a ++ (b ++ c))). by f_equal.
Qed.

Lemma append_empty_r (a : string) : a ++ EmptyString = a.
Proof.
  induction a as [|ch a IH]; [reflexivity|].
  change (String ch (a ++ EmptyString) = String ch a). by f_equal.
Qed.

Lemma init_lab_vm_hosts (m : machine) :
  hosts (init_lab_vm m) = hosts m ++ added_lines.
Proof.
  unfold init_lab_vm, Add_content, added_lines. cbn [hosts String.concat].
  assert (hosts (Disable_ScheduledTask "ServerManager" m) = hosts m) as ->.
  { unfold Disable_ScheduledTask. by destruct (tasks m !! "ServerManager"). }
  by rewrite !append_assoc.
Qed.

Lemma repeated_comm (n : nat) (s : string) :
  repeated n s ++ s = s ++ repeated n s.
Proof.
  induction n as [|n IH]; cbn [repeated].
  - by rewrite append_empty_r.
  - by rewrite append_assoc, IH.
Qed.

(** X23: the script only ever adds to the hosts file, and adds again each
    time it runs.  After [n] runs the file holds what it held before,
    unchanged, followed by [n] copies of the ten lines: nothing is removed
    or rewritten, and nothing keeps a second run from doubling the
    entries. *)
Theorem init_lab_vm_appends_each_run (n : nat) (m : machine) :
  hosts (Nat.iter n init_lab_vm m) = hosts m ++ repeated n added_lines.
Proof.
  induction n as [|n IH].
  - symmetry. apply append_empty_r.
  - change (Nat.iter (S n) init_lab_vm m)
      with (init_lab_vm (Nat.iter n init_lab_vm m)).
    rewrite init_lab_vm_hosts, IH, append_assoc, repeated_comm. reflexivity.
Qed.

(** X24: the scheduled tasks.  After the script the ServerManager task
    is not enabled, whether it was there or not (a task that is not there
    is not created), and every other task is as it was. *)
Theorem init_lab_vm_disables_server_manager (m : machine) :
  tasks (init_lab_vm m) !! "ServerManager" =
    (λ _, false) <$> tasks m !! "ServerManager" ∧
  (∀ name, name ≠ "ServerManager" →
           tasks (init_lab_vm m) !! name = tasks m !! name).
Proof.
  unfold init_lab_vm, Add_content. cbn [tasks].
  unfold Disable_ScheduledTask.
  destruct (tasks m !! "ServerManager") as [enabled|] eqn:Htask; cbn [tasks].
  - split; [by rewrite lookup_insert_eq|].
    intros name Hname. by rewrite lookup_insert_ne.
  - by split.
Qed.

End LabVmFacts.

(** ** Worked instances *)

Section MoreWitnesses.
Import Py Lib Examples MoreExamples.





Lemma deploy_py_untagged_model_witness :
  let w := deploy_inputs_with registered_untagged ∅ in
  let r := Deploy.deploy_py uri deploy_args w in
  files w !! ("accuracy", "accuracy_file") = Some (Pickle (PFloat 0.95)) ∧
  registry w !! Deploy.model_name = Some registered_untagged ∧
  (tags registered_untagged !! "accuracy" = None ∨
   tags registered_untagged !! "test_data" = None) ∧
  r.1 = Raise (KeyError "accuracy") ∧
  calls r.2 = calls w ∧ registry r.2 = registry w ∧ services r.2 = services w ∧
  files r.2 = files w.
Proof.
  intros w r.
  exact (conj eq_refl (conj eq_refl (conj (or_introl eq_refl)
           (deploy_py_untagged_model uri deploy_args w (PFloat 0.95)
              registered_untagged eq_refl eq_refl (or_introl eq_refl))))).
Defined.

Lemma deploy_py_text_accuracy_tag_witness :
  let w := deploy_inputs_with registered_with_text_tags ∅ in
  let r := Deploy.deploy_py uri deploy_args w in
  files w !! ("accuracy", "accuracy_file") = Some (Pickle (PFloat 0.95)) ∧
  registry w !! Deploy.model_name = Some registered_with_text_tags ∧
  tags registered_with_text_tags !! "accuracy" = Some (PStr "0.9") ∧
  tags registered_with_text_tags !! "test_data" = Some (PStr "A") ∧
  r.1 = Raise TypeError ∧
  calls r.2 = calls w ∧ registry r.2 = registry w ∧ services r.2 = services w ∧
  files r.2 = files w.
Proof.
  intros w r.
  exact (conj eq_refl (conj eq_refl (conj eq_refl (conj eq_refl
           (deploy_py_text_accuracy_tag uri deploy_args w 0.95
              registered_with_text_tags "0.9" eq_refl eq_refl eq_refl eq_refl))))).
Defined.

Lemma higher_accuracy : (0.90 < 0.95)%Q.
Proof. unfold Qlt. simpl. lia. Qed.

Lemma deploy_py_kept_model_without_endpoint_witness :
  let w := deploy_inputs_with registered_before ∅ in
  let r := Deploy.deploy_py uri deploy_args w in
  files w !! ("accuracy", "accuracy_file") = Some (Pickle (PFloat 0.95)) ∧
  registry w !! Deploy.model_name = Some registered_before ∧
  tags registered_before !! "accuracy" = Some (PFloat 0.90) ∧
  tags registered_before !! "test_data" = Some (PStr "A") ∧
  (0.90 < 0.95)%Q ∧
  services w !! Deploy.service_name = None ∧
  r.1 = Raise WebserviceException ∧
  calls r.2 = calls w ∧ registry r.2 = registry w ∧ services r.2 = services w ∧
  files r.2 = files w.
Proof.
  intros w r.
  exact (conj eq_refl (conj eq_refl (conj eq_refl (conj eq_refl
           (conj higher_accuracy (conj eq_refl
             (deploy_py_kept_model_without_endpoint uri deploy_args w 0.95 0.90
                registered_before eq_refl eq_refl eq_refl eq_refl
                higher_accuracy eq_refl))))))).
Defined.

Lemma init_failure_leaves_model_unbound_witness :
  let started := Score.init (Score.score_py blank).2 in
  (if environ blank !! "AZUREML_MODEL_DIR" is Some d
   then files blank !! (d, "model.pt") = None else True) ∧
  only_request request_body =
    Some (Score.JObject [("data", Score.JArray (Score.JNumber <$> measurements))]) ∧
  Score.subscript
    (Score.JObject [("data", Score.JArray (Score.JNumber <$> measurements))]) "data" =
    Ok (Score.JArray (Score.JNumber <$> measurements)) ∧
  started.1 = Raise TypeError ∧
  Score.run only_request request_body started.2 =
    (Raise (NameError "model"), started.2).
Proof.
  intros started.
  exact (conj I (conj eq_refl (conj eq_refl
           (init_failure_leaves_model_unbound only_request blank request_body
              (Score.JObject [("data", Score.JArray (Score.JNumber <$> measurements))])
              measurements I eq_refl eq_refl)))).
Defined.

Lemma init_loads_the_served_model_witness :
  let started := (Score.score_py;; Score.init) score_inputs in
  environ score_inputs !! "AZUREML_MODEL_DIR" = Some "/var/azureml-app/model" ∧
  files score_inputs !! ("/var/azureml-app/model", "model.pt") =
    Some (Pickle (PModel always_setosa)) ∧
  only_request request_body =
    Some (Score.JObject [("data", Score.JArray (Score.JNumber <$> measurements))]) ∧
  length measurements = n_features always_setosa ∧
  started.1 = Ok () ∧
  Score.run only_request request_body started.2 =
    (Ok [Str "Iris-setosa"], started.2).
Proof.
  intros started.
  exact (conj eq_refl (conj eq_refl (conj eq_refl (conj eq_refl
           (init_loads_the_served_model only_request score_inputs
              "/var/azureml-app/model" always_setosa request_body _ measurements
              eq_refl eq_refl eq_refl eq_refl eq_refl))))).
Defined.

Lemma started_score_inputs :
  let w := ((Score.score_py;; Score.init) score_inputs).2 in
  namespace w !! "np" = Some (PNamed "np") ∧
  namespace w !! "json" = Some (PNamed "json") ∧
  namespace w !! "model" = Some (PModel always_setosa).
Proof. vm_compute. done. Qed.

Lemma run_rejects_other_documents_witness :
  let w := ((Score.score_py;; Score.init) score_inputs).2 in
  namespace w !! "np" = Some (PNamed "np") ∧
  namespace w !! "json" = Some (PNamed "json") ∧
  namespace w !! "model" = Some (PModel always_setosa) ∧
  only_empty_object "{}" = Some (Score.JObject []) ∧
  (Score.run only_empty_object "{}" w).1 = Raise (KeyError "data").
Proof.
  intros w.
  destruct started_score_inputs as (H1 & H2 & H3). fold w in H1, H2, H3.
  exact (conj H1 (conj H2 (conj H3 (conj eq_refl
           (run_rejects_other_documents only_empty_object w _ _ always_setosa
              "{}" (Score.JObject []) H1 H2 H3 eq_refl))))).
Defined.

End MoreWitnesses.
